(** * plugin-mode-query: the three Mode-network query actions

    A shallow embedding of [packages/plugin-mode-query/src/index.ts]:
    the address regular expression, the JavaScript number formatting used
    for balances, the three action handlers written in a small monad of
    observable events, and the properties of their replies. *)

From Stdlib Require Import String Ascii List ZArith NArith Lia Bool.
From Stdlib Require Import DecimalString DecimalPos DecimalN.
From Stdlib Require Import Floats.SpecFloat.
Import ListNotations.

Local Open Scope list_scope.
Local Open Scope string_scope.

(** ** Strings *)

Module Str.

(** The line feed written [\n] in the source's template literals. *)
Definition LF : string := String (ascii_of_nat 10) EmptyString.

(** [occurs_at pre sub text]: [sub] occurs in [text] right after [pre]. *)
Definition occurs_at (pre sub text : string) : Prop :=
  exists post, text = pre ++ sub ++ post.

Definition contains (text sub : string) : Prop :=
  exists pre, occurs_at pre sub text.

(** [Array.prototype.join] on an array of strings. *)
Fixpoint join (sep : string) (l : list string) : string :=
  match l with
  | [] => ""
  | [x] => x
  | x :: rest => x ++ sep ++ join sep rest
  end.

(** [String.prototype.padStart]-like left padding with ["0"]. *)
Fixpoint zeros (n : nat) : string :=
  match n with
  | O => ""
  | S k => "0" ++ zeros k
  end.

(** Splitting a string at an index: [(take n s, drop n s)]. *)
Fixpoint take (n : nat) (s : string) : string :=
  match n, s with
  | S k, String c r => String c (take k r)
  | _, _ => ""
  end.

Fixpoint drop (n : nat) (s : string) : string :=
  match n, s with
  | S k, String _ r => drop k r
  | _, _ => s
  end.

(** Whether [sub] starts [s], and whether it occurs in [s]. *)
Fixpoint prefixb (sub s : string) : bool :=
  match sub, s with
  | EmptyString, _ => true
  | String c sub', String d s' => Ascii.eqb c d && prefixb sub' s'
  | String _ _, EmptyString => false
  end.

Fixpoint infixb (sub s : string) : bool :=
  prefixb sub s ||
  match s with
  | EmptyString => false
  | String _ s' => infixb sub s'
  end.

End Str.

(** ** The regular expression [/0x[a-fA-F0-9]{40}/] *)

Module Regex.

(** The character class [[a-fA-F0-9]]. *)
Definition is_hex (c : ascii) : bool :=
  let n := nat_of_ascii c in
  (((48 <=? n) && (n <=? 57)) || ((65 <=? n) && (n <=? 70))
   || ((97 <=? n) && (n <=? 102)))%nat.

(** [[a-fA-F0-9]{n}] anchored at the head of [s]: the [n] characters
    consumed, when they are all in the class. *)
Fixpoint take_hex (n : nat) (s : string) : option string :=
  match n with
  | O => Some ""
  | S k =>
      match s with
      | String c r =>
          if is_hex c
          then match take_hex k r with
               | Some h => Some (String c h)
               | None => None
               end
          else None
      | EmptyString => None
      end
  end.

(** The whole pattern anchored at the head of [s]. *)
Definition match_here (s : string) : option string :=
  match s with
  | String "0" (String "x" r) =>
      match take_hex 40 r with
      | Some h => Some ("0x" ++ h)
      | None => None
      end
  | _ => None
  end.

(** [text.match(/0x[a-fA-F0-9]{40}/)]: the engine tries every start
    position from the left and yields element [0] of the first match;
    [None] stands for the [null] returned when nothing matches. *)
Fixpoint match_address (text : string) : option string :=
  match match_here text with
  | Some a => Some a
  | None =>
      match text with
      | EmptyString => None
      | String _ r => match_address r
      end
  end.

(** The words of the specification: ["0x"] followed by exactly 40
    hexadecimal characters. *)
Fixpoint all_hex (s : string) : bool :=
  match s with
  | EmptyString => true
  | String c r => is_hex c && all_hex r
  end.

Definition address_shape (a : string) : Prop :=
  exists h, a = "0x" ++ h /\ String.length h = 40 /\ all_hex h = true.

End Regex.

Import Str Regex.

(** ** JavaScript numbers *)

Module JsNumber.

(** A Number is an IEEE 754 binary64 value. *)
Definition prec : Z := 53.
Definition emax : Z := 1024.
Definition number : Type := spec_float.

(** The Number nearest to an integer (ties to even). *)
Definition of_Z (z : Z) : number := binary_normalize prec emax z 0 false.

(** The operator [/]. *)
Definition div (x y : number) : number := SFdiv prec emax x y.

(** The literal [1e18]. *)
Definition lit_1e18 : number := of_Z (10 ^ 18).

(** The parts of the engine that the embedding leaves open: what
    [Number(s)] is for a string that is not a plain run of decimal digits
    (signs, fractions, exponents, white space, [0x] literals, [Infinity],
    and [NaN] for the rest), and [Number::toString] for the finite values
    of magnitude at least [10^21], the one case in which [toFixed] defers
    to it. *)
Class Engine : Type := {
  StringToNumber_other : string -> number;
  Number_toString : number -> string
}.

Definition digit_value (c : ascii) : option N :=
  let n := N_of_ascii c in
  if ((48 <=? n) && (n <=? 57))%N then Some (n - 48)%N else None.

Fixpoint decimal_digits (acc : N) (s : string) : option N :=
  match s with
  | EmptyString => Some acc
  | String c r =>
      match digit_value c with
      | Some d => decimal_digits (10 * acc + d)%N r
      | None => None
      end
  end.

(** The mathematical value of a non-empty run of decimal digits. *)
Definition decimal_literal (s : string) : option N :=
  match s with
  | EmptyString => None
  | _ => decimal_digits 0%N s
  end.

(** [Number(s)] for a string [s]. *)
Definition Number `{Engine} (s : string) : number :=
  match decimal_literal s with
  | Some n => of_Z (Z.of_N n)
  | None => StringToNumber_other s
  end.

(** The decimal digits of a natural number, ["0"] for zero. *)
Definition digits (n : N) : string :=
  NilZero.string_of_uint (N.to_uint n).

(** For [x = m * 2^e]: the integer [n] for which [n / 10^f - x] is as close
    to zero as possible, the larger one when there are two. *)
Definition scaled (m : positive) (e : Z) (f : nat) : Z :=
  let num := (Zpos m * 10 ^ Z.of_nat f)%Z in
  if (0 <=? e)%Z then (num * 2 ^ e)%Z
  else ((2 * num + 2 ^ (- e)) / 2 ^ (- e + 1))%Z.

(** [m * 2^e >= 10^21]. *)
Definition at_least_1e21 (m : positive) (e : Z) : bool :=
  if (0 <=? e)%Z then (10 ^ 21 <=? Zpos m * 2 ^ e)%Z
  else (10 ^ 21 * 2 ^ (- e) <=? Zpos m)%Z.

(** The digits of [n] with a point before the last [f] of them, padded
    with zeros on the left to [f + 1] digits, as [toFixed] lays them out. *)
Definition place_point (n : Z) (f : nat) : string :=
  let m := digits (Z.to_N n) in
  match f with
  | O => m
  | _ =>
      let k := String.length m in
      let m := if (k <=? f)%nat then zeros (f + 1 - k) ++ m else m in
      let k := String.length m in
      take (k - f) m ++ "." ++ drop (k - f) m
  end.

(** [x.toFixed(f)]. *)
Definition toFixed `{Engine} (x : number) (f : nat) : string :=
  match x with
  | S754_nan => "NaN"
  | S754_infinity s => if s then "-Infinity" else "Infinity"
  | S754_zero _ => place_point 0 f
  | S754_finite s m e =>
      if at_least_1e21 m e then
        (if s then "-" else "") ++ Number_toString (S754_finite false m e)
      else (if s then "-" else "") ++ place_point (scaled m e f) f
  end.

End JsNumber.

(** ** Observable events and the execution monad *)

(** A thrown value; the handlers read its [message] only. *)
Record JsError : Type := { error_message : string }.

(** The [TypeError] of reading a property of [undefined] or [null]. *)
Definition cannot_read (base prop : string) : JsError :=
  {| error_message :=
       "Cannot read properties of " ++ base ++ " (reading '" ++ prop ++ "')" |}.

(** The JSON shapes of the explorer's answers.  A field that may be missing
    is an [option]; [None] is JavaScript's [undefined]. *)
Record Block : Type := {
  block_height : option string;
  block_timestamp : option string;
  block_hash : option string
}.

Record Transaction : Type := {
  tx_hash : option string;
  tx_value : option string;
  tx_timestamp : option string
}.

(** The payload [{items: Transaction[]}] of the transactions endpoint. *)
Record TransactionPage : Type := { page_items : option (list Transaction) }.

Module BlockscoutResponse.
Record t : Type := {
  items : option (list Block);
  data : option TransactionPage;
  status : option string;
  message : option string;
  coin_balance : option string
}.
End BlockscoutResponse.

(** [response.data] of an axios response: the parsed envelope, or one of
    the falsy bodies.  [DataEmptyString] is the body of an empty answer
    and behaves as every falsy primitive does; a truthy body of another
    kind is the envelope of the fields it has. *)
Inductive ResponseData : Type :=
| DataUndefined
| DataNull
| DataEmptyString
| DataObject (envelope : BlockscoutResponse.t).

(** How the promise of [axios.get] settles, if it does. *)
Inductive HttpOutcome : Type :=
| Resolved (response_data : ResponseData)
| Rejected (error : JsError)
| NeverSettles.

(** The network as the handlers see it: the outcome of a GET per URL. *)
Definition Network : Type := string -> HttpOutcome.

(** What [console.log] is given. *)
Inductive Logged : Type :=
| LoggedString (v : option string)
| LoggedBlock (v : option Block).

Inductive event : Type :=
| HttpGet (url : string)
| ConsoleLog (v : Logged)
| LoggerLog (line : string)
| LoggerError (label : string) (error : JsError)
| Callback (text : string).

(** How a block of statements ends. *)
Inductive completion (A : Type) : Type :=
| Normal (a : A)
| Return
| Throw (error : JsError)
| Pending.

Arguments Normal {A} a.
Arguments Return {A}.
Arguments Throw {A} error.
Arguments Pending {A}.

(** The texts the callback was called with, in order. *)
Fixpoint replies (tr : list event) : list string :=
  match tr with
  | [] => []
  | Callback text :: rest => text :: replies rest
  | _ :: rest => replies rest
  end.

(** The URLs requested, in order. *)
Fixpoint requests (tr : list event) : list string :=
  match tr with
  | [] => []
  | HttpGet url :: rest => url :: requests rest
  | _ :: rest => requests rest
  end.

(** A [HandlerCallback], as far as a handler observes it.  The handlers
    call it and drop the promise it yields, so what they see of a call is
    whether it returns or throws; that may depend on the texts it was
    called with before, in this invocation, and on the text of this call.
    [None] is a call that returns, [Some e] one that throws [e]. *)
Definition HandlerCallback : Type := list string -> string -> option JsError.

Module Exec.

(** What a computation leaves: the log of events, in order, and how it
    ended. *)
Definition result (A : Type) : Type := list event * completion A.

(** A computation, from the log so far. *)
Definition t (A : Type) : Type := list event -> result A.

Definition ret {A} (a : A) : t A := fun log => (log, Normal a).

Definition bind {A B} (m : t A) (f : A -> t B) : t B :=
  fun log =>
    match m log with
    | (log', Normal a) => f a log'
    | (log', Return) => (log', Return)
    | (log', Throw e) => (log', Throw e)
    | (log', Pending) => (log', Pending)
    end.

Definition emit (ev : event) : t unit :=
  fun log => ((log ++ [ev])%list, Normal tt).
Definition throw {A} (e : JsError) : t A := fun log => (log, Throw e).
Definition return_ {A} : t A := fun log => (log, Return).

(** [try { body } catch (error) { handler }]. *)
Definition try_catch {A} (body : t A) (handler : JsError -> t A) : t A :=
  fun log =>
    match body log with
    | (log', Throw e) => handler e log'
    | other => other
    end.

(** [await axios.get(url)], yielding [response.data]. *)
Definition axios_get (net : Network) (url : string) : t ResponseData :=
  fun log =>
    ((log ++ [HttpGet url])%list,
     match net url with
     | Resolved d => Normal d
     | Rejected e => Throw e
     | NeverSettles => Pending
     end).

(** [callback({text})]: the call is logged, and it returns or throws as
    the callback does after the calls already in the log. *)
Definition call (callback : HandlerCallback) (reply : string) : t unit :=
  fun log =>
    ((log ++ [Callback reply])%list,
     match callback (replies log) reply with
     | None => Normal tt
     | Some e => Throw e
     end).

(** One invocation: the computation run from the empty log. *)
Definition run {A} (m : t A) : result A := m [].

Definition trace {A} (r : result A) : list event := fst r.
Definition outcome {A} (r : result A) : completion A := snd r.

End Exec.

Notation "x <- m ;; k" := (Exec.bind m (fun x => k))
  (at level 61, m at next level, right associativity).
Notation "m ;; k" := (Exec.bind m (fun _ => k))
  (at level 61, right associativity).

(** ** Values *)

(** [v || fallback] for an optional string: [undefined] and [""] are falsy. *)
Definition or_default (v : option string) (fallback : string) : string :=
  match v with
  | Some (String c r) => String c r
  | _ => fallback
  end.

(** The truthy strings among the optional ones. *)
Definition truthy (v : option string) : option string :=
  match v with
  | Some (String c r) => Some (String c r)
  | _ => None
  end.

(** [`${v}`] for an optional string. *)
Definition interpolate (v : option string) : string :=
  match v with
  | Some s => s
  | None => "undefined"
  end.

(** [v == 'success'] for an optional string. *)
Definition is_success (v : option string) : bool :=
  match v with
  | Some s => String.eqb s "success"
  | None => false
  end.

(** ** The plugin *)

Record Content : Type := { text : string }.
Record Memory : Type := { content : Content }.

(** The options bag, as far as the handlers read it. *)
Record Options : Type := { address : option string }.

Definition BLOCKSCOUT_API : string := "https://explorer.mode.network/api".

Section Plugin.

(** The host's types that the handlers never look into. *)
Context {IAgentRuntime State : Type}.
Context `{JsNumber.Engine}.

Import JsNumber.

(** [options?.address]. *)
Definition optional_address (options : option Options) : option string :=
  match options with
  | Some o => address o
  | None => None
  end.

(** The constant [address] of the balance and transactions handlers:
    [addressMatch ? addressMatch[0] : options?.address]. *)
Definition address_of (message : Memory) (options : option Options)
  : option string :=
  match match_address (text (content message)) with
  | Some a => Some a
  | None => optional_address options
  end.

(** [response.data?.message]. *)
Definition optional_message (d : ResponseData) : option string :=
  match d with
  | DataObject envelope => BlockscoutResponse.message envelope
  | _ => None
  end.

(** [const balanceInWei = response.data.coin_balance || '2']. *)
Definition balanceInWei (envelope : BlockscoutResponse.t) : string :=
  or_default (BlockscoutResponse.coin_balance envelope) "2".

(** [const balance = (Number(balanceInWei) / 1e18).toFixed(5)]. *)
Definition balance (balanceInWei : string) : string :=
  toFixed (div (Number balanceInWei) lit_1e18) 5.

(** A handler, run against a network: one invocation, from the empty log
    to what it leaves.  In the three handlers below the [match] on
    [response] spells out the guard [!response.data ||
    response.data.status == 'success'] (with [!==] in the third): a falsy
    body takes the branch at once, an envelope takes it on its status. *)
Definition Handler : Type :=
  IAgentRuntime -> Memory -> option State -> option Options ->
  option HandlerCallback -> Network -> Exec.result unit.

Definition getBalance_handler : Handler :=
  fun runtime message state options callback net =>
  Exec.run
  match callback with
  | None => Exec.return_
  | Some callback =>
      Exec.try_catch
        (match truthy (address_of message options) with
         | None =>
             Exec.call callback "Please provide a valid Mode network address" ;;
             Exec.return_
         | Some address =>
             response <-
               Exec.axios_get net (BLOCKSCOUT_API ++ "/v2/addresses/" ++ address) ;;
             match response with
             | DataObject envelope =>
                 if is_success (BlockscoutResponse.status envelope) then
                   Exec.call callback
                     (or_default (optional_message response)
                        "Failed to fetch balance") ;;
                   Exec.return_
                 else
                   Exec.emit (ConsoleLog
                     (LoggedString (BlockscoutResponse.coin_balance envelope))) ;;
                   let balanceInWei := balanceInWei envelope in
                   let balance := balance balanceInWei in
                   Exec.emit (LoggerLog
                     ("Balance for address " ++ address ++ ": " ++ balance)) ;;
                   Exec.call callback
                     ("The balance for " ++ address ++ " is " ++ balance ++ " ETH")
             | _ =>
                 Exec.call callback
                   (or_default (optional_message response)
                      "Failed to fetch balance") ;;
                 Exec.return_
             end
         end)
        (fun error =>
           Exec.emit (LoggerError "Error fetching balance:" error) ;;
           Exec.call callback ("Failed to fetch balance: " ++ error_message error))
  end.

(** [response.data.items[0]]: reading [items] of [undefined] or [null]
    throws, and so does reading index [0] of a missing [items]; the empty
    string has no [items]; an index past the end yields [undefined]. *)
Definition first_item (d : ResponseData) : Exec.t (option Block) :=
  match d with
  | DataUndefined => Exec.throw (cannot_read "undefined" "items")
  | DataNull => Exec.throw (cannot_read "null" "items")
  | DataEmptyString => Exec.throw (cannot_read "undefined" "0")
  | DataObject envelope =>
      match BlockscoutResponse.items envelope with
      | None => Exec.throw (cannot_read "undefined" "0")
      | Some l => Exec.ret (hd_error l)
      end
  end.

(** [block.field] for the [block] read from [items[0]]. *)
Definition block_field (block : option Block) (field : string)
    (get : Block -> option string) : Exec.t (option string) :=
  match block with
  | None => Exec.throw (cannot_read "undefined" field)
  | Some b => Exec.ret (get b)
  end.

Definition getLatestBlock_handler : Handler :=
  fun runtime message state options callback net =>
  Exec.run
  match callback with
  | None => Exec.return_
  | Some callback =>
      Exec.try_catch
        (response <- Exec.axios_get net (BLOCKSCOUT_API ++ "/v2/blocks") ;;
         logged <- first_item response ;;
         Exec.emit (ConsoleLog (LoggedBlock logged)) ;;
         match response with
         | DataObject envelope =>
             if is_success (BlockscoutResponse.status envelope) then
               Exec.call callback
                 (or_default (optional_message response)
                    "Failed to fetch latest block") ;;
               Exec.return_
             else
               block <- first_item response ;;
               height <- block_field block "height" block_height ;;
               timestamp <- block_field block "timestamp" block_timestamp ;;
               hash <- block_field block "hash" block_hash ;;
               Exec.call callback
                 ("Latest block:" ++ LF ++
                  "Number: " ++ or_default height "N/A" ++ LF ++
                  "Timestamp: " ++ or_default timestamp "N/A" ++ LF ++
                  "Hash: " ++ or_default hash "N/A")
         | _ =>
             Exec.call callback
               (or_default (optional_message response)
                  "Failed to fetch latest block") ;;
             Exec.return_
         end)
        (fun error =>
           Exec.emit (LoggerError "Error fetching latest block:" error) ;;
           Exec.call callback ("Failed to fetch latest block: " ++ error_message error))
  end.

(** [response.data.data?.items || []]: an array, even an empty one, is
    truthy. *)
Definition transactions_of (envelope : BlockscoutResponse.t)
  : list Transaction :=
  match BlockscoutResponse.data envelope with
  | Some page =>
      match page_items page with
      | Some l => l
      | None => []
      end
  | None => []
  end.

(** The arrow function given to [map]. *)
Definition render_tx (tx : Transaction) : string :=
  "Hash: " ++ interpolate (tx_hash tx) ++ LF ++
  "Value: " ++ or_default (tx_value tx) "0" ++ " ETH" ++ LF ++
  "Timestamp: " ++ or_default (tx_timestamp tx) "N/A".

Definition getTransactions_handler : Handler :=
  fun runtime message state options callback net =>
  Exec.run
  match callback with
  | None => Exec.return_
  | Some callback =>
      Exec.try_catch
        (match truthy (address_of message options) with
         | None =>
             Exec.call callback "Please provide a valid Mode network address" ;;
             Exec.return_
         | Some address =>
             response <-
               Exec.axios_get net
                 (BLOCKSCOUT_API ++ "/v2/addresses/" ++ address ++ "/transactions") ;;
             match response with
             | DataObject envelope =>
                 if negb (is_success (BlockscoutResponse.status envelope)) then
                   Exec.call callback
                     (or_default (optional_message response)
                        "Failed to fetch transactions") ;;
                   Exec.return_
                 else
                   let transactions := transactions_of envelope in
                   if (List.length transactions =? 0)%nat then
                     Exec.call callback ("No transactions found for " ++ address) ;;
                     Exec.return_
                   else
                     let txSummary :=
                       join (LF ++ LF) (map render_tx (firstn 5 transactions)) in
                     Exec.call callback
                       ("Recent transactions for " ++ address ++ ":" ++ LF ++ LF
                        ++ txSummary)
             | _ =>
                 Exec.call callback
                   (or_default (optional_message response)
                      "Failed to fetch transactions") ;;
                 Exec.return_
             end
         end)
        (fun error =>
           Exec.emit (LoggerError "Error fetching transactions:" error) ;;
           Exec.call callback ("Failed to fetch transactions: " ++ error_message error))
  end.

(** The action objects and the plugin that registers them. *)
Record Action : Type := {
  action_name : string;
  action_similes : list string;
  action_description : string;
  action_validate : IAgentRuntime -> Memory -> bool;
  action_handler : Handler
}.

Definition getBalance : Action := {|
  action_name := "GET_MODE_BALANCE";
  action_similes := ["CHECK_MODE_BALANCE"; "FETCH_MODE_BALANCE"];
  action_description := "Get the balance of a Mode network address";
  action_validate := fun _ _ => true;
  action_handler := getBalance_handler
|}.

Definition getLatestBlock : Action := {|
  action_name := "GET_MODE_BLOCK";
  action_similes := ["CHECK_MODE_BLOCK"; "FETCH_MODE_BLOCK"];
  action_description := "Get the latest block information from Mode network";
  action_validate := fun _ _ => true;
  action_handler := getLatestBlock_handler
|}.

Definition getTransactions : Action := {|
  action_name := "GET_MODE_TRANSACTIONS";
  action_similes := ["CHECK_MODE_TRANSACTIONS"; "FETCH_MODE_TRANSACTIONS"];
  action_description := "Get transactions for a Mode network address";
  action_validate := fun _ _ => true;
  action_handler := getTransactions_handler
|}.

Record Plugin : Type := {
  plugin_name : string;
  plugin_description : string;
  plugin_actions : list Action
}.

Definition modeQueryPlugin : Plugin := {|
  plugin_name := "@elizaos/plugin-mode-query";
  plugin_description := "Plugin for querying Mode network data";
  plugin_actions := [getBalance; getLatestBlock; getTransactions]
|}.

End Plugin.

(** ** The runs of the handlers, as values *)

Definition balance_url (a : string) : string :=
  BLOCKSCOUT_API ++ "/v2/addresses/" ++ a.
Definition blocks_url : string := BLOCKSCOUT_API ++ "/v2/blocks".
Definition transactions_url (a : string) : string :=
  BLOCKSCOUT_API ++ "/v2/addresses/" ++ a ++ "/transactions".

Definition prompt : string := "Please provide a valid Mode network address".

(** The text of the success path of the latest-block handler. *)
Definition block_text (b : Block) : string :=
  "Latest block:" ++ LF ++
  "Number: " ++ or_default (block_height b) "N/A" ++ LF ++
  "Timestamp: " ++ or_default (block_timestamp b) "N/A" ++ LF ++
  "Hash: " ++ or_default (block_hash b) "N/A".

(** What the [catch] clause of the handler of [operation] leaves, after the
    events [before], for the error [e]: the error is logged, the callback
    is called, and the handler ends as that call does. *)
Definition caught (callback : HandlerCallback) (operation : string)
    (before : list event) (e : JsError) : Exec.result unit :=
  let reply := "Failed to fetch " ++ operation ++ ": " ++ error_message e in
  ((before ++
    [LoggerError ("Error fetching " ++ operation ++ ":") e;
     Callback reply])%list,
   match callback (replies before) reply with
   | None => Normal tt
   | Some e' => Throw e'
   end).

(** What a first call of the callback, made in the [try] block after the
    events [before], leaves: if the call returns, the block ends with
    [ending]; if it throws, the [catch] clause takes over. *)
Definition replied (callback : HandlerCallback) (operation : string)
    (before : list event) (reply : string) (ending : completion unit)
  : Exec.result unit :=
  match callback [] reply with
  | None => ((before ++ [Callback reply])%list, ending)
  | Some e => caught callback operation (before ++ [Callback reply])%list e
  end.

(** The text of the non-empty success path of the transactions handler. *)
Definition transactions_text (a : string) (txs : list Transaction) : string :=
  "Recent transactions for " ++ a ++ ":" ++ LF ++ LF ++
  join (LF ++ LF) (map render_tx (firstn 5 txs)).

(** ** The words of the specification *)

(** The falsy bodies, for which [!response.data] holds. *)
Definition absent (d : ResponseData) : Prop :=
  match d with
  | DataObject _ => False
  | _ => True
  end.

(** [response.data.status == 'success'] on a body that is an envelope. *)
Definition status_is_success (d : ResponseData) : Prop :=
  match d with
  | DataObject envelope => BlockscoutResponse.status envelope = Some "success"
  | _ => False
  end.

(** The words of the specification for one transaction: three lines, the
    hash, the value or ["0"], the timestamp or ["N/A"]. *)
Definition entry_lines (tx : Transaction) : list string :=
  ["Hash: " ++ interpolate (tx_hash tx);
   "Value: " ++ or_default (tx_value tx) "0" ++ " ETH";
   "Timestamp: " ++ or_default (tx_timestamp tx) "N/A"].

(** The words of the specification for the list: a header naming the
    address, then the first five entries, a blank line between two. *)
Definition listing (a : string) (txs : list Transaction) : string :=
  "Recent transactions for " ++ a ++ ":" ++ LF ++ LF ++
  join (LF ++ LF) (map (fun tx => join LF (entry_lines tx)) (firstn 5 txs)).

(** ** Concrete inputs *)

Definition sample_address : string :=
  "0x742d35Cc6634C0532925a3b844Bc454e4438f44e".

Definition sample_message : Memory :=
  {| content :=
       {| text := "What's the balance of " ++ sample_address ++ "?" |} |}.

(** An engine for the concrete runs below; none of them reaches its two
    functions. *)
Definition sample_engine : JsNumber.Engine := {|
  JsNumber.StringToNumber_other := fun _ => S754_nan;
  JsNumber.Number_toString := fun _ => "NaN"
|}.

Definition plain_message : Memory :=
  {| content := {| text := "What's the latest block on Mode?" |} |}.

Definition envelope_of (items : option (list Block))
    (data : option TransactionPage) (status coin_balance : option string)
  : BlockscoutResponse.t := {|
  BlockscoutResponse.items := items;
  BlockscoutResponse.data := data;
  BlockscoutResponse.status := status;
  BlockscoutResponse.message := None;
  BlockscoutResponse.coin_balance := coin_balance
|}.

(** The network that answers every request with the same body. *)
Definition answering (d : ResponseData) : Network := fun _ => Resolved d.

(** The network that rejects every request with the same error. *)
Definition rejecting (e : JsError) : Network := fun _ => Rejected e.

Definition network_error : JsError := {| error_message := "Network Error" |}.

(** The network on which no request ever settles. *)
Definition silent : Network := fun _ => NeverSettles.

Definition one_ether : option string := Some "1000000000000000000".

(** A callback that returns from every call. *)
Definition quiet : HandlerCallback := fun _ _ => None.



Definition block_100 : Block :=
  {| block_height := Some "100"; block_timestamp := None;
     block_hash := Some "" |}.

Definition tx_without_hash : Transaction :=
  {| tx_hash := None; tx_value := Some "7"; tx_timestamp := None |}.

Definition override_abc : option Options :=
  Some {| address := Some "0xabc" |}.

Definition tx_of (h : string) : Transaction :=
  {| tx_hash := Some h; tx_value := None; tx_timestamp := Some "T" |}.

Definition seven : list Transaction :=
  map tx_of ["h1"; "h2"; "h3"; "h4"; "h5"; "h6"; "h7"].

Definition run_balance (options : option Options) (message : Memory)
    (net : Network) : Exec.result unit :=
  @getBalance_handler unit unit sample_engine
    tt message None options (Some quiet) net.

Definition run_block (net : Network) : Exec.result unit :=
  @getLatestBlock_handler unit unit
    tt plain_message None None (Some quiet) net.

Definition run_transactions (options : option Options) (message : Memory)
    (net : Network) : Exec.result unit :=
  @getTransactions_handler unit unit
    tt message None options (Some quiet) net.

(** ** Further vocabulary *)


(** A field of a block as the reply shows it: missing or empty, it is
    ["N/A"]. *)
Definition shown (v : option string) : string :=
  match v with
  | Some s => if String.eqb s "" then "N/A" else s
  | None => "N/A"
  end.

(** The decimal digits. *)
Definition is_digit (c : ascii) : bool :=
  match JsNumber.digit_value c with
  | Some _ => true
  | None => false
  end.

Fixpoint all_digits (s : string) : bool :=
  match s with
  | EmptyString => true
  | String c r => is_digit c && all_digits r
  end.

(** The Numbers that [toFixed] lays out itself: the zeros and the finite
    values of magnitude below [10^21]. *)
Definition below_1e21 (x : JsNumber.number) : Prop :=
  match x with
  | S754_zero _ => True
  | S754_finite _ m e => JsNumber.at_least_1e21 m e = false
  | _ => False
  end.

(** The sign that [toFixed] prints: a zero has none. *)
Definition sign_of (x : JsNumber.number) : string :=
  match x with
  | S754_finite true _ _ => "-"
  | _ => ""
  end.

(** The magnitude of a zero or finite Number, as a fraction. *)
Definition numerator (x : JsNumber.number) : Z :=
  match x with
  | S754_finite _ m e => (Zpos m * 2 ^ Z.max 0 e)%Z
  | _ => 0%Z
  end.

Definition denominator (x : JsNumber.number) : Z :=
  match x with
  | S754_finite _ m e => (2 ^ Z.max 0 (- e))%Z
  | _ => 1%Z
  end.

(** A text that carries an upper-case prefix, and a hash of 64 digits. *)
Definition upper_prefix_text : string :=
  "0X742d35Cc6634C0532925a3b844Bc454e4438f44e".

Definition sample_hash_tail : string := "0123456789abcdef01234567".

(** * Properties *)

(** ** Strings *)

Lemma append_assoc (a b c : string) : (a ++ b) ++ c = a ++ (b ++ c).
Proof. induction a as [|x a IH]; simpl; [reflexivity | now rewrite IH]. Qed.

Lemma length_append (a b : string) :
  String.length (a ++ b) = String.length a + String.length b.
Proof. induction a as [|x a IH]; simpl; [reflexivity | now rewrite IH]. Qed.

(** Two prefixes of the same length of one string are the same prefix. *)
Lemma append_same_length (a a' b b' : string) :
  a ++ b = a' ++ b' -> String.length a = String.length a' ->
  a = a' /\ b = b'.
Proof.
  revert a'. induction a as [|x a IH]; intros [|x' a']; simpl; intros H L;
    try discriminate.
  - now split.
  - injection H as -> H. injection L as L.
    destruct (IH _ H L) as [-> ->]. now split.
Qed.

Lemma take_hex_spec (n : nat) (s h : string) :
  take_hex n s = Some h <->
  exists post, s = h ++ post /\ String.length h = n /\ all_hex h = true.
Proof.
  revert s h. induction n as [|n IH]; intros s h.
  - simpl. split.
    + intros [= <-]. exists s. now repeat split.
    + intros (post & _ & L & _). destruct h; [reflexivity | discriminate].
  - destruct s as [|c r]; simpl.
    + split; [discriminate|].
      intros (post & E & L & _). destruct h; discriminate.
    + split.
      * destruct (is_hex c) eqn:Hc; [|discriminate].
        destruct (take_hex n r) as [h'|] eqn:Ht; [|discriminate].
        intros [= <-]. apply IH in Ht. destruct Ht as (post & -> & L & A).
        exists post. simpl. rewrite Hc, L, A. now repeat split.
      * intros (post & E & L & A). destruct h as [|c' h]; [discriminate|].
        simpl in E, L, A. injection E as <- ->. injection L as L.
        apply andb_prop in A. destruct A as [Hc A]. rewrite Hc.
        assert (take_hex n (h ++ post) = Some h) as ->
            by (apply IH; exists post; now repeat split).
        reflexivity.
Qed.

Lemma match_here_spec (s a : string) :
  match_here s = Some a <-> address_shape a /\ occurs_at "" a s.
Proof.
  unfold match_here, address_shape, occurs_at. split.
  - destruct s as [|c0 [|c1 r]]; try discriminate.
    + destruct c0 as [[] [] [] [] [] [] [] []]; discriminate.
    + destruct (ascii_dec c0 "0") as [->|N0].
      2:{ destruct c0 as [[] [] [] [] [] [] [] []]; try discriminate; now elim N0. }
      destruct (ascii_dec c1 "x") as [->|N1].
      2:{ destruct c1 as [[] [] [] [] [] [] [] []]; try discriminate; now elim N1. }
      destruct (take_hex 40 r) as [h|] eqn:Ht; [|discriminate].
      intros [= <-]. apply take_hex_spec in Ht.
      destruct Ht as (post & -> & L & A). split.
      * exists h. now repeat split.
      * exists post. simpl. reflexivity.
  - intros [(h & -> & L & A) (post & ->)].
    assert (take_hex 40 (h ++ post) = Some h) as Ht
        by (apply take_hex_spec; exists post; now repeat split).
    change ("" ++ ("0x" ++ h) ++ post) with (String "0" (String "x" (h ++ post))).
    cbv beta iota. now rewrite Ht.
Qed.

Lemma occurs_at_head (c : ascii) (pre sub r : string) :
  occurs_at (String c pre) sub (String c r) <-> occurs_at pre sub r.
Proof.
  unfold occurs_at. split; intros [post E]; exists post.
  - simpl in E. now injection E.
  - simpl. now rewrite E.
Qed.

Lemma occurs_at_cons_inv (pre sub r : string) (c : ascii) :
  occurs_at pre sub (String c r) ->
  pre = "" \/ exists pre', pre = String c pre' /\ occurs_at pre' sub r.
Proof.
  destruct pre as [|c' pre']; [now left|]. intros [post E]. right.
  simpl in E. injection E as <- E. exists pre'. split; [reflexivity|].
  now exists post.
Qed.

Lemma prefixb_spec (sub s : string) :
  prefixb sub s = true <-> occurs_at "" sub s.
Proof.
  unfold occurs_at. revert s.
  induction sub as [|c sub IH]; intros s; simpl.
  - split; [intros _; now exists s | reflexivity].
  - destruct s as [|d s].
    + split; [discriminate | intros [post [=]]].
    + rewrite andb_true_iff, Ascii.eqb_eq, IH. split.
      * intros [-> [post ->]]. now exists post.
      * intros [post [= -> ->]]. split; [reflexivity | now exists post].
Qed.

Lemma infixb_spec (sub s : string) :
  infixb sub s = true <-> contains s sub.
Proof.
  unfold contains. induction s as [|d s IH]; simpl;
    rewrite orb_true_iff, prefixb_spec.
  - split.
    + intros [O|[=]]. now exists "".
    + intros [pre [post E]]. left. exists post.
      destruct pre; [exact E | discriminate].
  - rewrite IH. split.
    + intros [O|[pre O]]; [now exists "" | exists (String d pre)].
      now apply occurs_at_head.
    + intros [pre O].
      destruct (occurs_at_cons_inv _ _ _ _ O) as [->|(p & -> & O')];
        [now left | right; now exists p].
Qed.

(** ** The regular expression finds the first address *)

Lemma address_shape_length (a : string) :
  address_shape a -> String.length a = 42.
Proof. intros (h & -> & L & _). simpl. now rewrite L. Qed.

Lemma match_address_first (txt a : string) :
  match_address txt = Some a ->
  exists pre, address_shape a /\ occurs_at pre a txt /\
    forall pre' a', address_shape a' -> occurs_at pre' a' txt ->
      String.length pre <= String.length pre'.
Proof.
  induction txt as [|c r IH]; intros M.
  - simpl in M. discriminate.
  - cbn [match_address] in M.
    destruct (match_here (String c r)) as [a0|] eqn:Hh.
    + injection M as ->. apply match_here_spec in Hh. destruct Hh as [Sh Oc].
      exists "". repeat split; auto. intros; simpl; lia.
    + destruct (IH M) as (pre & Sh & Oc & Min).
      exists (String c pre). repeat split; auto.
      * now apply occurs_at_head.
      * intros pre' a' Sh' Oc'.
        destruct (occurs_at_cons_inv _ _ _ _ Oc') as [->|(p & -> & Oc'')].
        -- assert (match_here (String c r) = Some a') as E
               by (apply match_here_spec; now split).
           congruence.
        -- simpl. apply le_n_S. eapply Min; eauto.
Qed.

Lemma match_address_none (txt : string) :
  match_address txt = None ->
  forall a, address_shape a -> ~ contains txt a.
Proof.
  induction txt as [|c r IH]; intros M a Sh [pre Oc].
  - destruct Oc as [post E]. apply address_shape_length in Sh.
    apply (f_equal String.length) in E. rewrite !length_append in E.
    simpl in E. lia.
  - cbn [match_address] in M.
    destruct (match_here (String c r)) as [a0|] eqn:Hh; [discriminate|].
    destruct (occurs_at_cons_inv _ _ _ _ Oc) as [->|(p & -> & Oc')].
    + assert (match_here (String c r) = Some a) as E
          by (apply match_here_spec; now split).
      congruence.
    + apply (IH M a Sh). now exists p.
Qed.

Lemma match_address_complete (txt : string) :
  (forall a, address_shape a -> ~ contains txt a) ->
  match_address txt = None.
Proof.
  intros No. destruct (match_address txt) as [a|] eqn:M; [|reflexivity].
  destruct (match_address_first _ _ M) as (pre & Sh & Oc & _).
  elim (No a Sh). now exists pre.
Qed.

Lemma truthy_Some (v : option string) (a : string) :
  truthy v = Some a <-> v = Some a /\ a <> "".
Proof.
  destruct v as [[|c r]|]; simpl; split; try discriminate.
  - intros [[= <-] N]. now elim N.
  - intros [= <-]. split; [reflexivity | discriminate].
  - intros [[= <-] _]. reflexivity.
  - intros [[=] _].
Qed.

Lemma truthy_None (v : option string) :
  truthy v = None <-> v = None \/ v = Some "".
Proof.
  destruct v as [[|c r]|]; simpl; split; auto; try discriminate.
  intros [|]; discriminate.
Qed.


(** ** The runs of the handlers *)

Section Runs.

Context {IAgentRuntime State : Type}.
Context `{JsNumber.Engine}.

Variables (runtime : IAgentRuntime) (message : Memory) (state : option State)
  (options : option Options) (net : Network).

Lemma no_callback_run (h : @Handler IAgentRuntime State) :
  In h [getBalance_handler; getLatestBlock_handler; getTransactions_handler] ->
  h runtime message state options None net = ([], Return).
Proof. intros [<-|[<-|[<-|[]]]]; reflexivity. Qed.

Lemma getBalance_run (callback : HandlerCallback) :
  getBalance_handler runtime message state options (Some callback) net =
  match truthy (address_of message options) with
  | None => replied callback "balance" [] prompt Return
  | Some a =>
      match net (balance_url a) with
      | Rejected e => caught callback "balance" [HttpGet (balance_url a)] e
      | NeverSettles => ([HttpGet (balance_url a)], Pending)
      | Resolved (DataObject envelope) =>
          if is_success (BlockscoutResponse.status envelope) then
            replied callback "balance" [HttpGet (balance_url a)]
              (or_default (BlockscoutResponse.message envelope)
                 "Failed to fetch balance")
              Return
          else
            let balance := balance (balanceInWei envelope) in
            replied callback "balance"
              [HttpGet (balance_url a);
               ConsoleLog
                 (LoggedString (BlockscoutResponse.coin_balance envelope));
               LoggerLog ("Balance for address " ++ a ++ ": " ++ balance)]
              ("The balance for " ++ a ++ " is " ++ balance ++ " ETH")
              (Normal tt)
      | Resolved _ =>
          replied callback "balance" [HttpGet (balance_url a)]
            "Failed to fetch balance" Return
      end
  end.
Proof.
  unfold getBalance_handler, Exec.run, Exec.try_catch, Exec.bind,
    Exec.axios_get, Exec.call, Exec.emit, Exec.return_, replied, caught,
    prompt.
  destruct (truthy (address_of message options)) as [a|];
    cbn [app replies].
  - fold (balance_url a).
    destruct (net (balance_url a)) as [[| | |envelope]|e|];
      cbn [app replies optional_message or_default];
      try destruct (is_success (BlockscoutResponse.status envelope));
      cbn [app replies];
      try reflexivity;
      match goal with
      | |- context [callback [] ?t] => destruct (callback [] t)
      end; reflexivity.
  - destruct (callback [] "Please provide a valid Mode network address");
      reflexivity.
Qed.

Lemma getLatestBlock_run (callback : HandlerCallback) :
  getLatestBlock_handler runtime message state options (Some callback) net =
  match net blocks_url with
  | Rejected e => caught callback "latest block" [HttpGet blocks_url] e
  | NeverSettles => ([HttpGet blocks_url], Pending)
  | Resolved DataUndefined =>
      caught callback "latest block" [HttpGet blocks_url]
        (cannot_read "undefined" "items")
  | Resolved DataNull =>
      caught callback "latest block" [HttpGet blocks_url]
        (cannot_read "null" "items")
  | Resolved DataEmptyString =>
      caught callback "latest block" [HttpGet blocks_url]
        (cannot_read "undefined" "0")
  | Resolved (DataObject envelope) =>
      match BlockscoutResponse.items envelope with
      | None =>
          caught callback "latest block" [HttpGet blocks_url]
            (cannot_read "undefined" "0")
      | Some l =>
          if is_success (BlockscoutResponse.status envelope) then
            replied callback "latest block"
              [HttpGet blocks_url; ConsoleLog (LoggedBlock (hd_error l))]
              (or_default (BlockscoutResponse.message envelope)
                 "Failed to fetch latest block")
              Return
          else
            match hd_error l with
            | Some b =>
                replied callback "latest block"
                  [HttpGet blocks_url; ConsoleLog (LoggedBlock (Some b))]
                  (block_text b) (Normal tt)
            | None =>
                caught callback "latest block"
                  [HttpGet blocks_url; ConsoleLog (LoggedBlock None)]
                  (cannot_read "undefined" "height")
            end
      end
  end.
Proof.
  unfold getLatestBlock_handler, Exec.run, Exec.try_catch, Exec.bind,
    Exec.axios_get, Exec.call, Exec.emit, Exec.return_, Exec.throw, Exec.ret,
    replied, caught, block_text.
  fold blocks_url. cbn [app].
  destruct (net blocks_url) as [[| | |envelope]|e|]; try reflexivity.
  unfold first_item, Exec.throw, Exec.ret.
  destruct (BlockscoutResponse.items envelope) as [l|]; [|reflexivity].
  cbn [app replies optional_message].
  destruct (is_success (BlockscoutResponse.status envelope)).
  - cbn [app replies].
    match goal with
    | |- context [callback [] ?t] => destruct (callback [] t)
    end; reflexivity.
  - destruct l as [|b l]; cbn [hd_error block_field app replies];
      unfold Exec.throw, Exec.ret; cbn [app replies]; [reflexivity|].
    match goal with
    | |- context [callback [] ?t] => destruct (callback [] t)
    end; reflexivity.
Qed.

Lemma getTransactions_run (callback : HandlerCallback) :
  getTransactions_handler runtime message state options (Some callback) net =
  match truthy (address_of message options) with
  | None => replied callback "transactions" [] prompt Return
  | Some a =>
      match net (transactions_url a) with
      | Rejected e =>
          caught callback "transactions" [HttpGet (transactions_url a)] e
      | NeverSettles => ([HttpGet (transactions_url a)], Pending)
      | Resolved (DataObject envelope) =>
          if is_success (BlockscoutResponse.status envelope) then
            match transactions_of envelope with
            | [] =>
                replied callback "transactions" [HttpGet (transactions_url a)]
                  ("No transactions found for " ++ a) Return
            | txs =>
                replied callback "transactions" [HttpGet (transactions_url a)]
                  (transactions_text a txs) (Normal tt)
            end
          else
            replied callback "transactions" [HttpGet (transactions_url a)]
              (or_default (BlockscoutResponse.message envelope)
                 "Failed to fetch transactions")
              Return
      | Resolved _ =>
          replied callback "transactions" [HttpGet (transactions_url a)]
            "Failed to fetch transactions" Return
      end
  end.
Proof.
  unfold getTransactions_handler, Exec.run, Exec.try_catch, Exec.bind,
    Exec.axios_get, Exec.call, Exec.emit, Exec.return_, replied, caught,
    transactions_text, prompt.
  destruct (truthy (address_of message options)) as [a|];
    cbn [app replies].
  - fold (transactions_url a).
    destruct (net (transactions_url a)) as [[| | |envelope]|e|];
      cbn [app replies optional_message or_default];
      try destruct (is_success (BlockscoutResponse.status envelope));
      cbn [app replies negb];
      try destruct (transactions_of envelope) as [|tx txs];
      cbn [List.length Nat.eqb app replies];
      try reflexivity;
      match goal with
      | |- context [callback [] ?t] => destruct (callback [] t)
      end; reflexivity.
  - destruct (callback [] "Please provide a valid Mode network address");
      reflexivity.
Qed.

End Runs.

(** ** Properties of the address extractor *)

(** C7: when the text contains a substring made of ["0x"] and exactly 40
    hexadecimal characters, the extractor returns the first such substring
    of the text, whatever surrounds it and whatever the options bag
    carries: no address-shaped substring starts before it, and the one
    that starts where it starts is the one returned. *)
Theorem address_of_first_match (message : Memory) (options : option Options) :
  (exists a0, address_shape a0 /\ contains (text (content message)) a0) ->
  exists pre a,
    address_of message options = Some a /\
    address_shape a /\
    occurs_at pre a (text (content message)) /\
    forall pre' a',
      address_shape a' -> occurs_at pre' a' (text (content message)) ->
      String.length pre <= String.length pre' /\
      (String.length pre' = String.length pre -> a' = a).
Proof.
  intros (a0 & Sh0 & C0). unfold address_of.
  destruct (match_address (text (content message))) as [a|] eqn:M.
  - destruct (match_address_first _ _ M) as (pre & Sh & Oc & Min).
    exists pre, a. split; [reflexivity|]. split; [exact Sh|].
    split; [exact Oc|]. intros pre' a' Sh' Oc'.
    split; [now apply (Min pre' a')|].
    intros L. destruct Oc as [post E], Oc' as [post' E'].
    rewrite E in E'.
    destruct (append_same_length _ _ _ _ E' (eq_sym L)) as [_ E2].
    apply append_same_length in E2; [symmetry; tauto|].
    now rewrite (address_shape_length _ Sh), (address_shape_length _ Sh').
  - elim (match_address_none _ M a0 Sh0 C0).
Qed.

Lemma sample_address_shape : address_shape sample_address.
Proof.
  exists "742d35Cc6634C0532925a3b844Bc454e4438f44e". now repeat split.
Qed.

Lemma address_of_first_match_witness :
  exists pre a,
    address_of sample_message (Some {| address := Some "0xabc" |}) = Some a /\
    address_shape a /\
    occurs_at pre a (text (content sample_message)) /\
    forall pre' a',
      address_shape a' -> occurs_at pre' a' (text (content sample_message)) ->
      String.length pre <= String.length pre' /\
      (String.length pre' = String.length pre -> a' = a).
Proof.
  apply (address_of_first_match sample_message).
  exists sample_address. split; [exact sample_address_shape|].
  exists "What's the balance of ", "?". reflexivity.
Defined.

(** ** Properties of the handlers *)

Lemma is_success_true (v : option string) :
  is_success v = true <-> v = Some "success".
Proof.
  destruct v as [s|]; simpl; [|split; discriminate].
  rewrite String.eqb_eq. split; [now intros -> | now intros [= ->]].
Qed.

Lemma is_success_false (v : option string) :
  is_success v = false <-> v <> Some "success".
Proof.
  rewrite <- is_success_true. destruct (is_success v); split; congruence.
Qed.


(** What [replied] and [caught] leave. *)
Lemma replied_returns (callback : HandlerCallback) (operation : string)
    (before : list event) (reply : string) (ending : completion unit) :
  callback [] reply = None ->
  replied callback operation before reply ending =
    ((before ++ [Callback reply])%list, ending).
Proof. unfold replied. now intros ->. Qed.

Lemma replies_app (l l' : list event) :
  replies (l ++ l') = (replies l ++ replies l')%list.
Proof.
  induction l as [|ev l IH]; [reflexivity|].
  destruct ev; simpl; now rewrite IH.
Qed.

Lemma requests_app (l l' : list event) :
  requests (l ++ l') = (requests l ++ requests l')%list.
Proof.
  induction l as [|ev l IH]; [reflexivity|].
  destruct ev; simpl; now rewrite IH.
Qed.

Lemma replied_first_reply (callback : HandlerCallback) (operation : string)
    (before : list event) (reply : string) (ending : completion unit) :
  replies before = [] ->
  hd_error (replies (Exec.trace (replied callback operation before reply ending)))
    = Some reply.
Proof.
  intros B. unfold replied, caught.
  destruct (callback [] reply); cbn [Exec.trace fst];
    rewrite !replies_app, B; reflexivity.
Qed.

Lemma replied_requests (callback : HandlerCallback) (operation : string)
    (before : list event) (reply : string) (ending : completion unit) :
  requests (Exec.trace (replied callback operation before reply ending)) =
  requests before.
Proof.
  unfold replied, caught.
  destruct (callback [] reply); cbn [Exec.trace fst];
    rewrite !requests_app; cbn [requests]; now rewrite ?app_nil_r.
Qed.

(** The cases of a run of each handler, each closed by [tac]. *)
Ltac balance_cases message options net tac :=
  rewrite getBalance_run;
  let a := fresh "a" in
  let envelope := fresh "envelope" in
  destruct (truthy (address_of message options)) as [a|];
  [ destruct (net (balance_url a)) as [[| | |envelope]|?e|] eqn:?;
    try destruct (is_success (BlockscoutResponse.status envelope)) | ];
  tac.

Ltac block_cases net tac :=
  rewrite getLatestBlock_run;
  let envelope := fresh "envelope" in
  destruct (net blocks_url) as [[| | |envelope]|?e|] eqn:?;
  try destruct (BlockscoutResponse.items envelope) as [[|?b ?l]|];
  try destruct (is_success (BlockscoutResponse.status envelope));
  cbn [hd_error];
  tac.

Ltac transactions_cases message options net tac :=
  rewrite getTransactions_run;
  let a := fresh "a" in
  let envelope := fresh "envelope" in
  destruct (truthy (address_of message options)) as [a|];
  [ destruct (net (transactions_url a)) as [[| | |envelope]|?e|] eqn:?;
    try destruct (is_success (BlockscoutResponse.status envelope));
    try destruct (transactions_of envelope) | ];
  tac.

(** Splits on whether the first call of the callback returns. *)
Ltac first_call callback :=
  unfold replied, caught; cbn [replies app];
  try match goal with
      | |- context [callback [] ?t] =>
          let E := fresh "E" in destruct (callback [] t) eqn:E
      end.

Section Claims.

Context {IAgentRuntime State : Type}.
Context `{JsNumber.Engine}.

Variables (runtime : IAgentRuntime) (message : Memory) (state : option State)
  (options : option Options) (callback : HandlerCallback) (net : Network).

(** The balance handler takes the branch that reports the failure text, and
    returns, when the body is absent or its status is ['success'];
    otherwise it computes the balance. *)
Lemma getBalance_failure_branch (a : string) (d : ResponseData) :
  truthy (address_of message options) = Some a ->
  net (balance_url a) = Resolved d ->
  absent d \/ status_is_success d ->
  getBalance_handler runtime message state options (Some callback) net =
    replied callback "balance" [HttpGet (balance_url a)]
      (or_default (optional_message d) "Failed to fetch balance") Return.
Proof.
  intros A N C. rewrite getBalance_run, A, N.
  destruct d as [| | |envelope]; simpl in *; try reflexivity.
  destruct C as [[]|S]. apply is_success_true in S. now rewrite S.
Qed.

Lemma getBalance_success_branch (a : string) (envelope : BlockscoutResponse.t) :
  truthy (address_of message options) = Some a ->
  net (balance_url a) = Resolved (DataObject envelope) ->
  BlockscoutResponse.status envelope <> Some "success" ->
  getBalance_handler runtime message state options (Some callback) net =
    let balance := balance (balanceInWei envelope) in
    replied callback "balance"
      [HttpGet (balance_url a);
       ConsoleLog (LoggedString (BlockscoutResponse.coin_balance envelope));
       LoggerLog ("Balance for address " ++ a ++ ": " ++ balance)]
      ("The balance for " ++ a ++ " is " ++ balance ++ " ETH")
      (Normal tt).
Proof.
  intros A N S. rewrite getBalance_run, A, N.
  apply is_success_false in S. now rewrite S.
Qed.

(** The transactions handler takes that branch when the body is absent or
    its status is not ['success']; otherwise it lists the transactions. *)
Lemma getTransactions_failure_branch (a : string) (d : ResponseData) :
  truthy (address_of message options) = Some a ->
  net (transactions_url a) = Resolved d ->
  absent d \/ ~ status_is_success d ->
  getTransactions_handler runtime message state options (Some callback) net =
    replied callback "transactions" [HttpGet (transactions_url a)]
      (or_default (optional_message d) "Failed to fetch transactions") Return.
Proof.
  intros A N C. rewrite getTransactions_run, A, N.
  destruct d as [| | |envelope]; simpl in *; try reflexivity.
  destruct C as [[]|S]. apply is_success_false in S. now rewrite S.
Qed.

Lemma getTransactions_success_branch
    (a : string) (envelope : BlockscoutResponse.t) :
  truthy (address_of message options) = Some a ->
  net (transactions_url a) = Resolved (DataObject envelope) ->
  BlockscoutResponse.status envelope = Some "success" ->
  getTransactions_handler runtime message state options (Some callback) net =
    match transactions_of envelope with
    | [] =>
        replied callback "transactions" [HttpGet (transactions_url a)]
          ("No transactions found for " ++ a) Return
    | txs =>
        replied callback "transactions" [HttpGet (transactions_url a)]
          (transactions_text a txs) (Normal tt)
    end.
Proof.
  intros A N S. rewrite getTransactions_run, A, N.
  apply is_success_true in S. now rewrite S.
Qed.

(** The latest-block handler takes that branch when the body is an envelope
    that has an [items] field and whose status is ['success']. *)
Lemma getLatestBlock_failure_branch
    (envelope : BlockscoutResponse.t) (l : list Block) :
  net blocks_url = Resolved (DataObject envelope) ->
  BlockscoutResponse.items envelope = Some l ->
  BlockscoutResponse.status envelope = Some "success" ->
  getLatestBlock_handler runtime message state options (Some callback) net =
    replied callback "latest block"
      [HttpGet blocks_url; ConsoleLog (LoggedBlock (hd_error l))]
      (or_default (BlockscoutResponse.message envelope)
         "Failed to fetch latest block")
      Return.
Proof.
  intros N I S. rewrite getLatestBlock_run, N, I.
  apply is_success_true in S. now rewrite S.
Qed.

(** It renders the first block when the status is not ['success']. *)
Lemma getLatestBlock_success_branch
    (envelope : BlockscoutResponse.t) (b : Block) (l : list Block) :
  net blocks_url = Resolved (DataObject envelope) ->
  BlockscoutResponse.items envelope = Some (b :: l) ->
  BlockscoutResponse.status envelope <> Some "success" ->
  getLatestBlock_handler runtime message state options (Some callback) net =
    replied callback "latest block"
      [HttpGet blocks_url; ConsoleLog (LoggedBlock (Some b))]
      (block_text b) (Normal tt).
Proof.
  intros N I S. rewrite getLatestBlock_run, N, I.
  apply is_success_false in S. now rewrite S.
Qed.

(** An absent body never reaches the test of the status: reading
    [response.data.items[0]] for the log throws first. *)
Lemma getLatestBlock_absent_body (d : ResponseData) :
  net blocks_url = Resolved d ->
  absent d ->
  exists e,
    getLatestBlock_handler runtime message state options (Some callback) net =
      caught callback "latest block" [HttpGet blocks_url] e.
Proof.
  intros N A. rewrite getLatestBlock_run, N.
  destruct d; [eexists; reflexivity ..|destruct A].
Qed.

(** C3: when the text holds no ["0x"] and 40 hexadecimal characters and the
    options bag supplies no address, the balance handler and the
    transactions handler call the callback with the prompt, first of all,
    and issue no request; when that call returns, they do nothing else
    and return. *)
Theorem missing_address_prompt :
  (forall a, address_shape a -> ~ contains (text (content message)) a) ->
  optional_address options = None ->
  (let run := getBalance_handler runtime message state options
                (Some callback) net in
   hd_error (replies (Exec.trace run)) =
     Some "Please provide a valid Mode network address"
   /\ requests (Exec.trace run) = []
   /\ (callback [] "Please provide a valid Mode network address" = None ->
       replies (Exec.trace run) =
         ["Please provide a valid Mode network address"]
       /\ Exec.outcome run = Return)) /\
  (let run := getTransactions_handler runtime message state options
                (Some callback) net in
   hd_error (replies (Exec.trace run)) =
     Some "Please provide a valid Mode network address"
   /\ requests (Exec.trace run) = []
   /\ (callback [] "Please provide a valid Mode network address" = None ->
       replies (Exec.trace run) =
         ["Please provide a valid Mode network address"]
       /\ Exec.outcome run = Return)).
Proof.
  intros No Opt. cbv zeta. rewrite getBalance_run, getTransactions_run.
  unfold address_of. rewrite (match_address_complete _ No), Opt.
  cbn [truthy]. unfold prompt.
  split; (split; [now apply replied_first_reply|]);
    (split; [now rewrite replied_requests|]);
    intros R; rewrite (replied_returns _ _ _ _ _ R); split; reflexivity.
Qed.



(** One ether in wei is printed as ["1.00000"]: what the balance handler
    replies when the status of the envelope is anything but ['success']. *)
Lemma balance_of_one_ether (a : string) (envelope : BlockscoutResponse.t) :
  truthy (address_of message options) = Some a ->
  net (balance_url a) = Resolved (DataObject envelope) ->
  BlockscoutResponse.status envelope <> Some "success" ->
  BlockscoutResponse.coin_balance envelope = Some "1000000000000000000" ->
  hd_error (replies (Exec.trace
    (getBalance_handler runtime message state options (Some callback) net))) =
    Some ("The balance for " ++ a ++ " is 1.00000 ETH").
Proof.
  intros A N S C. rewrite (getBalance_success_branch a envelope A N S).
  cbv zeta. rewrite replied_first_reply by reflexivity.
  unfold balanceInWei. rewrite C. reflexivity.
Qed.

(** C5: on the path of the balance handler that computes a balance, a
    missing [coin_balance] makes [balanceInWei] the string ["2"], not
    ["0"]: the amount divided by [1e18] is the Number 2, the quotient is
    the Number nearest to 2e-18, and the balance that is logged and
    replied is that quotient printed with 5 decimals. *)
Theorem missing_coin_balance_is_2 (a : string) (envelope : BlockscoutResponse.t) :
  truthy (address_of message options) = Some a ->
  net (BLOCKSCOUT_API ++ "/v2/addresses/" ++ a) = Resolved (DataObject envelope) ->
  BlockscoutResponse.status envelope <> Some "success" ->
  BlockscoutResponse.coin_balance envelope = None ->
  let run := getBalance_handler runtime message state options
               (Some callback) net in
  let wei := balanceInWei envelope in
  wei = "2" /\ wei <> "0" /\
  JsNumber.Number wei = JsNumber.of_Z 2 /\
  JsNumber.Number wei <> JsNumber.Number "0" /\
  JsNumber.div (JsNumber.Number wei) JsNumber.lit_1e18 =
    S754_finite false 5192296858534828 (-111) /\
  (2 * Z.abs (5192296858534828 * 10 ^ 18 - 2 * 2 ^ 111) <= 10 ^ 18)%Z /\
  balance wei = "0.00000" /\
  In (LoggerLog ("Balance for address " ++ a ++ ": " ++ balance wei))
     (Exec.trace run) /\
  hd_error (replies (Exec.trace run)) =
    Some ("The balance for " ++ a ++ " is " ++ balance wei ++ " ETH") /\
  (callback [] ("The balance for " ++ a ++ " is " ++ balance wei ++ " ETH")
     = None ->
   replies (Exec.trace run) =
     ["The balance for " ++ a ++ " is " ++ balance wei ++ " ETH"]).
Proof.
  intros A N S C run wei.
  assert (wei = "2") as W by (unfold wei, balanceInWei; now rewrite C).
  unfold run. rewrite (getBalance_success_branch a envelope A N S).
  cbv zeta. fold wei. clearbody wei. subst wei.
  split; [reflexivity|].
  split; [discriminate|].
  split; [reflexivity|].
  split; [vm_compute; discriminate|].
  split; [vm_compute; reflexivity|].
  split; [vm_compute; discriminate|].
  split; [vm_compute; reflexivity|].
  split.
  { unfold replied, caught.
    destruct (callback [] _); cbn [Exec.trace fst app In]; tauto. }
  split; [now apply replied_first_reply|].
  intros R. now rewrite (replied_returns _ _ _ _ _ R).
Qed.

Lemma render_tx_lines (tx : Transaction) :
  render_tx tx = join LF (entry_lines tx).
Proof.
  unfold render_tx, entry_lines. cbn [join].
  now rewrite !append_assoc.
Qed.

Lemma transactions_text_listing (a : string) (txs : list Transaction) :
  transactions_text a txs = listing a txs.
Proof.
  unfold transactions_text, listing.
  now rewrite (map_ext render_tx _ render_tx_lines).
Qed.

(** C6: on the path of the transactions handler taken when the status is
    ['success'], an empty list gives exactly ["No transactions found for
    {address}"]; otherwise the reply is the header naming the address
    followed by the first 5 entries only, each three lines, separated by
    blank lines.  That reply is the first call of the callback, and the
    only one when the call returns. *)
Theorem transactions_reply (a : string) (envelope : BlockscoutResponse.t) :
  truthy (address_of message options) = Some a ->
  net (BLOCKSCOUT_API ++ "/v2/addresses/" ++ a ++ "/transactions") =
    Resolved (DataObject envelope) ->
  BlockscoutResponse.status envelope = Some "success" ->
  let run := getTransactions_handler runtime message state options
               (Some callback) net in
  (transactions_of envelope = [] ->
   hd_error (replies (Exec.trace run)) =
     Some ("No transactions found for " ++ a) /\
   (callback [] ("No transactions found for " ++ a) = None ->
    replies (Exec.trace run) = ["No transactions found for " ++ a])) /\
  (transactions_of envelope <> [] ->
   hd_error (replies (Exec.trace run)) =
     Some (listing a (transactions_of envelope)) /\
   (callback [] (listing a (transactions_of envelope)) = None ->
    replies (Exec.trace run) = [listing a (transactions_of envelope)])).
Proof.
  intros A N S run. unfold run.
  rewrite (getTransactions_success_branch a envelope A N S).
  destruct (transactions_of envelope) as [|tx txs]; split; intros E;
    try congruence.
  - split; [now apply replied_first_reply|].
    intros R. now rewrite (replied_returns _ _ _ _ _ R).
  - rewrite transactions_text_listing.
    split; [now apply replied_first_reply|].
    intros R. now rewrite (replied_returns _ _ _ _ _ R).
Qed.

(** From [In (HttpGet url) trace] on a computed trace: the URL that was
    requested is [url]; the outcomes of the network at it must agree. *)
Ltac requested_url callback :=
  first_call callback; cbn [replies Exec.trace fst In app];
  let I := fresh "I" in
  intros I; decompose [or] I; try contradiction;
  first
    [ exfalso; congruence
    | match goal with
      | E : HttpGet _ = HttpGet _ |- _ => injection E as E; subst
      end;
      first
        [ exfalso; congruence
        | match goal with
          | R1 : ?net ?u = Rejected ?e1, R2 : ?net ?u = Rejected ?e2 |- _ =>
              assert (e1 = e2) by congruence; subst; reflexivity
          end ] ].

(** C8: when the request that a handler issues is rejected with an error,
    the callback is called exactly once, with ["Failed to fetch "], the
    operation, [": "] and the message of the error. *)
Theorem rejected_request_reply (url : string) (e : JsError) :
  net url = Rejected e ->
  (let run := getBalance_handler runtime message state options
                (Some callback) net in
   In (HttpGet url) (Exec.trace run) ->
   replies (Exec.trace run) =
     ["Failed to fetch balance: " ++ error_message e]) /\
  (let run := getLatestBlock_handler runtime message state options
                (Some callback) net in
   In (HttpGet url) (Exec.trace run) ->
   replies (Exec.trace run) =
     ["Failed to fetch latest block: " ++ error_message e]) /\
  (let run := getTransactions_handler runtime message state options
                (Some callback) net in
   In (HttpGet url) (Exec.trace run) ->
   replies (Exec.trace run) =
     ["Failed to fetch transactions: " ++ error_message e]).
Proof.
  intros R. split; [|split]; intros run; unfold run; clear run.
  - balance_cases message options net ltac:(requested_url callback).
  - block_cases net ltac:(requested_url callback).
  - transactions_cases message options net ltac:(requested_url callback).
Qed.

(** C9: when the blocks endpoint answers with an envelope whose status is
    not ['success'] and whose [items] is empty or missing, the latest-block
    handler renders no block, not even with ["N/A"] fields: the read of the
    first item (or of its [height]) throws, the error is caught and logged,
    and the callback is called once with ["Failed to fetch latest block: "]
    and the message of that error; the handler ends as that call does,
    normally when it returns. *)
Theorem empty_blocks_reply (envelope : BlockscoutResponse.t) :
  net (BLOCKSCOUT_API ++ "/v2/blocks") = Resolved (DataObject envelope) ->
  BlockscoutResponse.status envelope <> Some "success" ->
  BlockscoutResponse.items envelope = None \/
  BlockscoutResponse.items envelope = Some [] ->
  let run := getLatestBlock_handler runtime message state options
               (Some callback) net in
  exists e,
    replies (Exec.trace run) =
      ["Failed to fetch latest block: " ++ error_message e] /\
    In (LoggerError "Error fetching latest block:" e) (Exec.trace run) /\
    (forall b, ~ In (Callback (block_text b)) (Exec.trace run)) /\
    Exec.outcome run =
      match callback [] ("Failed to fetch latest block: " ++ error_message e)
      with
      | None => Normal tt
      | Some e' => Throw e'
      end.
Proof.
  intros N S I run. unfold run. rewrite getLatestBlock_run.
  fold blocks_url in N. rewrite N. apply is_success_false in S.
  destruct I as [I|I]; rewrite I; [|rewrite S; cbn [hd_error]];
    eexists; unfold caught;
    cbn [replies Exec.trace Exec.outcome fst snd In app];
    (split; [reflexivity|]); (split; [tauto|]); (split; [|reflexivity]);
    intros b B; unfold block_text in B; cbn in B; decompose [or] B;
    congruence.
Qed.

(** C10: the address taken from the options bag is not checked against the
    shape of an address.  When the text has no match, any non-empty
    [options.address] goes as it is into the URL, and the request is
    issued; the handler opens with the prompt only when the text has no
    match and the options bag gives no address (none, or the empty string,
    which is as falsy as none), and the prompt is then all of the run when
    the call returns. *)
Theorem override_is_not_validated :
  (forall a,
     (forall a', address_shape a' -> ~ contains (text (content message)) a') ->
     optional_address options = Some a -> a <> "" ->
     (exists rest,
        Exec.trace (getBalance_handler runtime message state options
                      (Some callback) net) =
        HttpGet (BLOCKSCOUT_API ++ "/v2/addresses/" ++ a) :: rest) /\
     (exists rest,
        Exec.trace (getTransactions_handler runtime message state options
                      (Some callback) net) =
        HttpGet (BLOCKSCOUT_API ++ "/v2/addresses/" ++ a ++ "/transactions")
        :: rest)) /\
  (forall h : @Handler IAgentRuntime State,
     In h [getBalance_handler; getTransactions_handler] ->
     let run := h runtime message state options (Some callback) net in
     (hd_error (Exec.trace run) =
        Some (Callback "Please provide a valid Mode network address")
      <->
      (forall a', address_shape a' -> ~ contains (text (content message)) a') /\
      (optional_address options = None \/ optional_address options = Some ""))
     /\
     (callback [] "Please provide a valid Mode network address" = None ->
      (Exec.trace run =
         [Callback "Please provide a valid Mode network address"]
       <->
       (forall a', address_shape a' -> ~ contains (text (content message)) a') /\
       (optional_address options = None \/
        optional_address options = Some "")))).
Proof.
  split.
  - intros a No Opt Ne.
    assert (truthy (address_of message options) = Some a) as A.
    { unfold address_of. rewrite (match_address_complete _ No), Opt.
      apply truthy_Some. now split. }
    rewrite getBalance_run, getTransactions_run, A.
    fold (balance_url a) (transactions_url a). split.
    + destruct (net (balance_url a)) as [[| | |envelope]|e|];
        try destruct (is_success (BlockscoutResponse.status envelope));
        first_call callback; eexists; reflexivity.
    + destruct (net (transactions_url a)) as [[| | |envelope]|e|];
        try destruct (is_success (BlockscoutResponse.status envelope));
        try destruct (transactions_of envelope);
        first_call callback; eexists; reflexivity.
  - assert (truthy (address_of message options) = None <->
            (forall a', address_shape a' ->
                        ~ contains (text (content message)) a') /\
            (optional_address options = None \/
             optional_address options = Some "")) as T.
    { rewrite truthy_None. unfold address_of.
      destruct (match_address (text (content message))) as [a|] eqn:M.
      - destruct (match_address_first _ _ M) as (pre & Sh & Oc & _).
        split.
        + intros [[=]|[= ->]]. destruct Sh as (h & [=] & _).
        + intros [No _]. elim (No a Sh). now exists pre.
      - split; [|tauto]. intros O. split; [|exact O].
        exact (match_address_none _ M). }
    intros h [<-|[<-|[]]]; cbv zeta; rewrite <- T.
    + balance_cases message options net
        ltac:(unfold prompt; first_call callback;
              cbn [Exec.trace fst app hd_error];
              (split; [|intros ?]); split; intros; congruence).
    + transactions_cases message options net
        ltac:(unfold prompt; first_call callback;
              cbn [Exec.trace fst app hd_error];
              (split; [|intros ?]); split; intros; congruence).
Qed.

End Claims.

(** ** Concrete runs *)

(** C1: the failure text is not reported by the latest-block handler when
    the body is absent.  The handler reads [response.data.items[0]] for
    [console.log] before it tests [!response.data]; on each of the falsy
    bodies that read throws, and the reply is the text of the [catch]
    clause with the message of the [TypeError], not the generic fallback
    ["Failed to fetch latest block"] that the test would give. *)
Theorem latest_block_absent_body :
  let reply d := replies (Exec.trace (run_block (answering d))) in
  reply DataUndefined =
    ["Failed to fetch latest block: Cannot read properties of undefined (reading 'items')"] /\
  reply DataNull =
    ["Failed to fetch latest block: Cannot read properties of null (reading 'items')"] /\
  reply DataEmptyString =
    ["Failed to fetch latest block: Cannot read properties of undefined (reading '0')"] /\
  reply DataUndefined <> ["Failed to fetch latest block"] /\
  reply DataNull <> ["Failed to fetch latest block"] /\
  reply DataEmptyString <> ["Failed to fetch latest block"].
Proof. cbv zeta. repeat split; try reflexivity; vm_compute; discriminate. Qed.

(** C2: a balance response whose status is ['success'] and whose
    [coin_balance] is ["1000000000000000000"] does not get the balance as
    its reply: the test [status == 'success'] sends it to the failure
    branch, and the reply is ["Failed to fetch balance"], in which
    ["1.00000 ETH"] does not occur. *)
Theorem balance_of_success_response :
  let run := run_balance None sample_message
               (answering (DataObject
                  (envelope_of None None (Some "success") one_ether))) in
  run = ([HttpGet (BLOCKSCOUT_API ++ "/v2/addresses/" ++ sample_address);
          Callback "Failed to fetch balance"], Return) /\
  ~ contains "Failed to fetch balance" "1.00000 ETH".
Proof.
  split; [reflexivity|]. intros C. apply infixb_spec in C. discriminate C.
Qed.


(** ** Instances of the properties on concrete inputs *)

Lemma missing_address_prompt_witness :
  (let run := run_balance None plain_message (answering DataNull) in
   replies (Exec.trace run) = ["Please provide a valid Mode network address"]
   /\ requests (Exec.trace run) = []
   /\ Exec.outcome run = Return) /\
  (let run := run_transactions None plain_message (answering DataNull) in
   replies (Exec.trace run) = ["Please provide a valid Mode network address"]
   /\ requests (Exec.trace run) = []
   /\ Exec.outcome run = Return).
Proof.
  destruct (@missing_address_prompt unit unit sample_engine
              tt plain_message None None quiet (answering DataNull))
    as [(_ & Qb & Rb) (_ & Qt & Rt)].
  - apply match_address_none. reflexivity.
  - reflexivity.
  - destruct (Rb eq_refl) as [Pb Ob]. destruct (Rt eq_refl) as [Pt Ot].
    cbv zeta. repeat split; assumption.
Defined.


Lemma missing_coin_balance_is_2_witness :
  balanceInWei (envelope_of None None None None) = "2" /\
  replies (Exec.trace
    (run_balance None sample_message
       (answering (DataObject (envelope_of None None None None))))) =
    ["The balance for " ++ sample_address ++ " is 0.00000 ETH"].
Proof.
  destruct (@missing_coin_balance_is_2 unit unit sample_engine
              tt sample_message None None quiet
              (answering (DataObject (envelope_of None None None None)))
              sample_address (envelope_of None None None None))
    as (W & _ & _ & _ & _ & _ & _ & _ & _ & R).
  - reflexivity.
  - reflexivity.
  - simpl. discriminate.
  - reflexivity.
  - split; [exact W | exact (R eq_refl)].
Defined.

Lemma transactions_reply_witness :
  let envelope :=
    envelope_of None (Some {| page_items := Some seven |}) (Some "success") None in
  replies (Exec.trace
    (run_transactions None sample_message (answering (DataObject envelope)))) =
    [listing sample_address seven] /\
  listing sample_address seven =
    "Recent transactions for " ++ sample_address ++ ":" ++ LF ++ LF ++
    join (LF ++ LF)
      (map (fun h => "Hash: " ++ h ++ LF ++ "Value: 0 ETH" ++ LF ++ "Timestamp: T")
         ["h1"; "h2"; "h3"; "h4"; "h5"]).
Proof.
  intros envelope. split; [|reflexivity].
  destruct (@transactions_reply unit unit
              tt sample_message None None quiet
              (answering (DataObject envelope)) sample_address envelope)
    as [_ L].
  - reflexivity.
  - reflexivity.
  - reflexivity.
  - destruct L as [_ R]; [simpl; discriminate|]. exact (R eq_refl).
Defined.

Lemma rejected_request_reply_witness :
  replies (Exec.trace (run_balance None sample_message (rejecting network_error))) =
    ["Failed to fetch balance: Network Error"] /\
  replies (Exec.trace (run_block (rejecting network_error))) =
    ["Failed to fetch latest block: Network Error"] /\
  replies (Exec.trace
    (run_transactions None sample_message (rejecting network_error))) =
    ["Failed to fetch transactions: Network Error"].
Proof.
  split; [|split].
  - apply (@rejected_request_reply unit unit sample_engine
             tt sample_message None None quiet (rejecting network_error)
             (balance_url sample_address) network_error eq_refl).
    simpl. left. reflexivity.
  - apply (@rejected_request_reply unit unit sample_engine
             tt plain_message None None quiet (rejecting network_error)
             blocks_url network_error eq_refl).
    simpl. left. reflexivity.
  - apply (@rejected_request_reply unit unit sample_engine
             tt sample_message None None quiet (rejecting network_error)
             (transactions_url sample_address) network_error eq_refl).
    simpl. left. reflexivity.
Defined.

Lemma empty_blocks_reply_witness :
  let run :=
    run_block (answering (DataObject (envelope_of (Some []) None None None))) in
  exists e,
    replies (Exec.trace run) =
      ["Failed to fetch latest block: " ++ error_message e] /\
    In (LoggerError "Error fetching latest block:" e) (Exec.trace run) /\
    (forall b, ~ In (Callback (block_text b)) (Exec.trace run)) /\
    Exec.outcome run = Normal tt.
Proof.
  apply (@empty_blocks_reply unit unit
           tt plain_message None None quiet
           (answering (DataObject (envelope_of (Some []) None None None)))
           (envelope_of (Some []) None None None)).
  - reflexivity.
  - simpl. discriminate.
  - right. reflexivity.
Defined.

Lemma override_is_not_validated_witness :
  (exists rest,
     Exec.trace
       (run_balance (Some {| address := Some "bob" |}) plain_message
          (rejecting network_error)) =
     HttpGet "https://explorer.mode.network/api/v2/addresses/bob" :: rest) /\
  (Exec.trace (run_balance (Some {| address := Some "" |}) plain_message
                 (rejecting network_error)) =
     [Callback "Please provide a valid Mode network address"]).
Proof.
  split.
  - apply (proj1 (@override_is_not_validated unit unit sample_engine
             tt plain_message None (Some {| address := Some "bob" |}) quiet
             (rejecting network_error)) "bob").
    + apply match_address_none. reflexivity.
    + reflexivity.
    + discriminate.
  - destruct (proj2 (@override_is_not_validated unit unit sample_engine
               tt plain_message None (Some {| address := Some "" |}) quiet
               (rejecting network_error))
               (@getBalance_handler unit unit sample_engine))
      as [_ R].
    + simpl. left. reflexivity.
    + apply (R eq_refl).
      split; [apply match_address_none; reflexivity | right; reflexivity].
Defined.

(** ** The examples of the specification *)

(** A first block [{height: "100", timestamp: "T1", hash: "H1"}] with a
    status other than ['success']. *)
Example latest_block_example :
  replies (Exec.trace (run_block (answering (DataObject
    (envelope_of
       (Some [ {| block_height := Some "100"; block_timestamp := Some "T1";
                  block_hash := Some "H1" |} ])
       None None None))))) =
  ["Latest block:" ++ LF ++ "Number: 100" ++ LF ++ "Timestamp: T1" ++ LF ++
   "Hash: H1"].
Proof. reflexivity. Qed.

(** One ether, with a status other than ['success']. *)
Example one_ether_example :
  replies (Exec.trace (run_balance None sample_message
    (answering (DataObject (envelope_of None None None one_ether))))) =
  ["The balance for " ++ sample_address ++ " is 1.00000 ETH"].
Proof. vm_compute. reflexivity. Qed.

(** No transaction, with the status ['success']. *)
Example no_transactions_example :
  replies (Exec.trace (run_transactions None sample_message
    (answering (DataObject
       (envelope_of None (Some {| page_items := Some [] |})
          (Some "success") None))))) =
  ["No transactions found for " ++ sample_address].
Proof. reflexivity. Qed.

(** * Further properties of the code *)

(** ** The regular expression *)

(** X1: the match is [null] exactly when the text holds no ["0x"] followed
    by 40 hexadecimal characters, and a match that is found is such a
    substring of the text. *)
Theorem match_address_characterised (txt : string) :
  (match_address txt = None <->
   forall a, address_shape a -> ~ contains txt a) /\
  (forall a, match_address txt = Some a ->
             address_shape a /\ contains txt a).
Proof.
  split; [split|].
  - apply match_address_none.
  - apply match_address_complete.
  - intros a M. destruct (match_address_first _ _ M) as (pre & Sh & Oc & _).
    split; [exact Sh | now exists pre].
Qed.

Lemma match_address_here (txt a : string) :
  match_here txt = Some a -> match_address txt = Some a.
Proof. intros M. destruct txt; cbn [match_address]; now rewrite M. Qed.

(** X2: the pattern has no boundary after the 40th character: an address
    at the head of the text is matched whatever follows it, more
    hexadecimal characters included, so that a longer hexadecimal word is
    cut to its first 40 digits. *)
Theorem match_address_ignores_what_follows (a post : string) :
  address_shape a -> match_address (a ++ post) = Some a.
Proof.
  intros Sh. apply match_address_here, match_here_spec.
  split; [exact Sh | now exists post].
Qed.

Lemma match_address_ignores_what_follows_witness :
  match_address (sample_address ++ sample_hash_tail) = Some sample_address.
Proof.
  apply (match_address_ignores_what_follows sample_address sample_hash_tail).
  exact sample_address_shape.
Defined.

(** X3: the prefix is matched with its case: a text in which the lower-case
    letter ["x"] does not occur has no match, even if it holds ["0X"] and
    40 hexadecimal characters. *)
Theorem match_address_needs_lower_x (txt : string) :
  ~ contains txt "x" -> match_address txt = None.
Proof.
  intros No. apply match_address_complete.
  intros a (h & -> & _) [pre [post E]]. apply No.
  exists (pre ++ "0"), (h ++ post). rewrite E.
  now rewrite !append_assoc.
Qed.

Lemma match_address_needs_lower_x_witness :
  match_address upper_prefix_text = None.
Proof.
  apply (match_address_needs_lower_x upper_prefix_text).
  intros C. apply infixb_spec in C. discriminate C.
Defined.


(** ** The handlers *)

Lemma prefixb_append (s t : string) : prefixb s (s ++ t) = true.
Proof. apply prefixb_spec. now exists t. Qed.

Lemma or_default_not_empty (v : option string) (fallback : string) :
  fallback <> "" -> or_default v fallback <> "".
Proof. destruct v as [[|c r]|]; simpl; auto; discriminate. Qed.

Lemma or_default_shown (v : option string) : or_default v "N/A" = shown v.
Proof. destruct v as [[|c r]|]; reflexivity. Qed.

Lemma caught_requests (callback : HandlerCallback) (operation : string)
    (before : list event) (e : JsError) :
  requests (Exec.trace (caught callback operation before e)) = requests before.
Proof.
  unfold caught. cbn [Exec.trace fst]. rewrite requests_app.
  cbn [requests]. now rewrite app_nil_r.
Qed.

Section Further.

Context {IAgentRuntime State : Type}.
Context `{JsNumber.Engine}.

Variables (runtime : IAgentRuntime) (message : Memory) (state : option State)
  (options : option Options) (callback : HandlerCallback) (net : Network).

(** X4: an address found in the text goes into the URL whatever the options
    bag holds: the balance handler and the transactions handler request
    the page of the first match, and nothing else. *)
Theorem text_match_beats_override (a : string) :
  match_address (text (content message)) = Some a ->
  requests (Exec.trace
    (getBalance_handler runtime message state options (Some callback) net)) =
    [BLOCKSCOUT_API ++ "/v2/addresses/" ++ a] /\
  requests (Exec.trace
    (getTransactions_handler runtime message state options (Some callback) net)) =
    [BLOCKSCOUT_API ++ "/v2/addresses/" ++ a ++ "/transactions"].
Proof.
  intros M.
  assert (truthy (address_of message options) = Some a) as A.
  { unfold address_of. rewrite M.
    destruct (match_address_first _ _ M) as (_ & (h & -> & _) & _).
    reflexivity. }
  rewrite getBalance_run, getTransactions_run, A.
  fold (balance_url a) (transactions_url a). split.
  - destruct (net (balance_url a)) as [[| | |envelope]|e|];
      try destruct (is_success (BlockscoutResponse.status envelope));
      rewrite ?replied_requests, ?caught_requests; reflexivity.
  - destruct (net (transactions_url a)) as [[| | |envelope]|e|];
      try destruct (is_success (BlockscoutResponse.status envelope));
      try destruct (transactions_of envelope);
      rewrite ?replied_requests, ?caught_requests; reflexivity.
Qed.

(** Closes one case of the bound on the requests. *)
Ltac one_request :=
  cbv zeta; rewrite ?replied_requests, ?caught_requests;
  cbn [requests Exec.trace fst List.length In]; split; auto;
  let I := fresh "I" in
  intros ? I; decompose [or] I; try contradiction; subst;
  apply prefixb_append.

(** X5: whichever action is run, at most one request is issued, and its
    URL starts with the address of the explorer; there is no retry and no
    other host. *)
Theorem at_most_one_request
    (a : @Action IAgentRuntime State)
    (callback' : option HandlerCallback) :
  In a (plugin_actions modeQueryPlugin) ->
  let run := action_handler a runtime message state options callback' net in
  List.length (requests (Exec.trace run)) <= 1 /\
  forall url, In url (requests (Exec.trace run)) ->
              prefixb "https://explorer.mode.network/api" url = true.
Proof.
  intros I. destruct callback' as [cb|].
  2:{ destruct I as [<-|[<-|[<-|[]]]]; cbn; split; auto; intros ? []. }
  destruct I as [<-|[<-|[<-|[]]]];
    cbn [action_handler getBalance getLatestBlock getTransactions].
  - balance_cases message options net ltac:(one_request).
  - block_cases net ltac:(one_request).
  - transactions_cases message options net ltac:(one_request).
Qed.



(** Closes one case of the statement that no reply is empty. *)
Ltac not_empty callback :=
  first_call callback;
  cbn [replies Exec.trace fst In app];
  let I := fresh "I" in
  intros I; decompose [or] I; try contradiction; subst;
  try (apply or_default_not_empty); discriminate.

(** X7: whichever action is run, the callback is never given an empty
    text: an empty message of the explorer is replaced by the generic
    text, and every other reply starts with words of the handler. *)
Theorem reply_is_not_empty
    (a : @Action IAgentRuntime State) (reply : string) :
  In a (plugin_actions modeQueryPlugin) ->
  In reply (replies (Exec.trace
    (action_handler a runtime message state options (Some callback) net))) ->
  reply <> "".
Proof.
  intros [<-|[<-|[<-|[]]]];
    cbn [action_handler getBalance getLatestBlock getTransactions].
  - balance_cases message options net ltac:(not_empty callback).
  - block_cases net ltac:(not_empty callback).
  - transactions_cases message options net ltac:(not_empty callback).
Qed.



(** Closes one case of the statement on a request that never settles. *)
Ltac unsettled callback :=
  cbv zeta; first_call callback;
  cbn [Exec.trace Exec.outcome fst snd In app];
  let I := fresh "I" in
  intros I; decompose [or] I; try contradiction;
  first
    [ exfalso; congruence
    | match goal with
      | E : HttpGet _ = HttpGet _ |- _ => injection E as E; subst
      end;
      first [exfalso; congruence | split; reflexivity] ].

(** X9: there is no timeout: whichever action is run, if the request it
    issued never settles, the handler stays at the request, and the
    callback is not called. *)
Theorem unsettled_request_gives_no_reply
    (a : @Action IAgentRuntime State) (url : string) :
  In a (plugin_actions modeQueryPlugin) ->
  net url = NeverSettles ->
  let run := action_handler a runtime message state options
               (Some callback) net in
  In (HttpGet url) (Exec.trace run) ->
  Exec.trace run = [HttpGet url] /\ Exec.outcome run = Pending.
Proof.
  intros I R. destruct I as [<-|[<-|[<-|[]]]];
    cbn [action_handler getBalance getLatestBlock getTransactions].
  - balance_cases message options net ltac:(unsettled callback).
  - block_cases net ltac:(unsettled callback).
  - transactions_cases message options net ltac:(unsettled callback).
Qed.

(** X10: the transactions handler reads the list under [data.items] only:
    with the status ['success'], a missing [data], or a [data] without
    [items], gives ["No transactions found for {address}"], whatever the
    field [items] of the envelope itself holds.  That reply is the first
    call of the callback, and the only one when the call returns. *)
Theorem transactions_without_data (a : string) (envelope : BlockscoutResponse.t) :
  truthy (address_of message options) = Some a ->
  net (BLOCKSCOUT_API ++ "/v2/addresses/" ++ a ++ "/transactions") =
    Resolved (DataObject envelope) ->
  BlockscoutResponse.status envelope = Some "success" ->
  BlockscoutResponse.data envelope = None \/
  BlockscoutResponse.data envelope = Some {| page_items := None |} ->
  let run := getTransactions_handler runtime message state options
               (Some callback) net in
  hd_error (replies (Exec.trace run)) =
    Some ("No transactions found for " ++ a) /\
  (callback [] ("No transactions found for " ++ a) = None ->
   replies (Exec.trace run) = ["No transactions found for " ++ a]).
Proof.
  intros A N S D run. unfold run.
  rewrite (getTransactions_success_branch _ _ _ _ _ _ a envelope A N S).
  assert (transactions_of envelope = []) as ->
      by (unfold transactions_of; destruct D as [-> | ->]; reflexivity).
  split; [now apply replied_first_reply|].
  intros R. now rewrite (replied_returns _ _ _ _ _ R).
Qed.

(** X11: in the transactions handler a status that is missing, or anything
    but ['success'], is a failure even when transactions came with it: the
    reply is the message of the envelope as it is, or the generic text when
    the message is missing or empty.  That reply is the first call of the
    callback, and the only one when the call returns. *)
Theorem transactions_without_success (a : string) (envelope : BlockscoutResponse.t) :
  truthy (address_of message options) = Some a ->
  net (BLOCKSCOUT_API ++ "/v2/addresses/" ++ a ++ "/transactions") =
    Resolved (DataObject envelope) ->
  BlockscoutResponse.status envelope <> Some "success" ->
  let reply := replies (Exec.trace
    (getTransactions_handler runtime message state options (Some callback) net)) in
  (forall m, BlockscoutResponse.message envelope = Some m -> m <> "" ->
             hd_error reply = Some m /\
             (callback [] m = None -> reply = [m])) /\
  (BlockscoutResponse.message envelope = None \/
   BlockscoutResponse.message envelope = Some "" ->
   hd_error reply = Some "Failed to fetch transactions" /\
   (callback [] "Failed to fetch transactions" = None ->
    reply = ["Failed to fetch transactions"])).
Proof.
  intros A N S reply. unfold reply.
  rewrite (getTransactions_failure_branch _ _ _ _ _ _ a _ A N)
    by (right; exact S).
  cbn [optional_message]. split.
  - intros m -> Ne.
    assert (or_default (Some m) "Failed to fetch transactions" = m) as ->
        by (destruct m; [now elim Ne | reflexivity]).
    split; [now apply replied_first_reply|].
    intros R. now rewrite (replied_returns _ _ _ _ _ R).
  - intros M.
    assert (or_default (BlockscoutResponse.message envelope)
              "Failed to fetch transactions" = "Failed to fetch transactions")
      as -> by (destruct M as [-> | ->]; reflexivity).
    split; [now apply replied_first_reply|].
    intros R. now rewrite (replied_returns _ _ _ _ _ R).
Qed.

(** X12: when the status is not ['success'] and the list of blocks is not
    empty, the latest-block handler renders its first block and no other:
    three labelled lines under ["Latest block:"], a field that is missing
    or empty shown as ["N/A"].  That reply is the first call of the
    callback, and the only one when the call returns. *)
Theorem latest_block_rendering
    (envelope : BlockscoutResponse.t) (b : Block) (l : list Block) :
  net (BLOCKSCOUT_API ++ "/v2/blocks") = Resolved (DataObject envelope) ->
  BlockscoutResponse.items envelope = Some (b :: l) ->
  BlockscoutResponse.status envelope <> Some "success" ->
  let run := getLatestBlock_handler runtime message state options
               (Some callback) net in
  let rendering :=
    "Latest block:" ++ LF ++
    "Number: " ++ shown (block_height b) ++ LF ++
    "Timestamp: " ++ shown (block_timestamp b) ++ LF ++
    "Hash: " ++ shown (block_hash b) in
  hd_error (replies (Exec.trace run)) = Some rendering /\
  (callback [] rendering = None -> replies (Exec.trace run) = [rendering]).
Proof.
  intros N I S run rendering. unfold run.
  rewrite (getLatestBlock_success_branch _ _ _ _ _ _ envelope b l N I S).
  assert (block_text b = rendering) as ->
      by (unfold block_text, rendering; now rewrite !or_default_shown).
  split; [now apply replied_first_reply|].
  intros R. now rewrite (replied_returns _ _ _ _ _ R).
Qed.

(** X13: the hash of a transaction has no default: when the first
    transaction of the list has none, the listing, which is the first call
    of the callback, opens with the line ["Hash: undefined"]. *)
Theorem missing_hash_is_undefined
    (a : string) (envelope : BlockscoutResponse.t)
    (tx : Transaction) (rest : list Transaction) :
  truthy (address_of message options) = Some a ->
  net (BLOCKSCOUT_API ++ "/v2/addresses/" ++ a ++ "/transactions") =
    Resolved (DataObject envelope) ->
  BlockscoutResponse.status envelope = Some "success" ->
  transactions_of envelope = tx :: rest ->
  tx_hash tx = None ->
  exists more,
    let listing :=
      "Recent transactions for " ++ a ++ ":" ++ LF ++ LF ++
      "Hash: undefined" ++ LF ++ more in
    let run := getTransactions_handler runtime message state options
                 (Some callback) net in
    hd_error (replies (Exec.trace run)) = Some listing /\
    (callback [] listing = None -> replies (Exec.trace run) = [listing]).
Proof.
  intros A N S T Hh.
  rewrite (getTransactions_success_branch _ _ _ _ _ _ a envelope A N S), T.
  assert (exists more,
            transactions_text a (tx :: rest) =
            "Recent transactions for " ++ a ++ ":" ++ LF ++ LF ++
            "Hash: undefined" ++ LF ++ more) as [more E].
  { unfold transactions_text.
    change (firstn 5 (tx :: rest)) with (tx :: firstn 4 rest). cbn [map].
    destruct (map render_tx (firstn 4 rest)) as [|x xs]; cbn [join];
      unfold render_tx; rewrite Hh; cbn [interpolate];
      rewrite ?append_assoc; eexists; reflexivity. }
  exists more. cbv zeta. rewrite E.
  split; [now apply replied_first_reply|].
  intros R. now rewrite (replied_returns _ _ _ _ _ R).
Qed.

End Further.

(** ** The balance printed *)

Lemma take_drop (n : nat) (s : string) : take n s ++ drop n s = s.
Proof.
  revert s. induction n as [|n IH]; intros [|c r]; simpl; try reflexivity.
  now rewrite IH.
Qed.

Lemma length_drop (n : nat) (s : string) :
  String.length (drop n s) = String.length s - n.
Proof.
  revert s. induction n as [|n IH]; intros [|c r]; simpl; auto.
Qed.

Lemma length_zeros (n : nat) : String.length (zeros n) = n.
Proof. induction n as [|n IH]; simpl; [reflexivity | now rewrite IH]. Qed.

Lemma all_digits_append (a b : string) :
  all_digits (a ++ b) = all_digits a && all_digits b.
Proof.
  induction a as [|c a IH]; simpl; [reflexivity|].
  now rewrite IH, andb_assoc.
Qed.

Lemma all_digits_zeros (n : nat) : all_digits (zeros n) = true.
Proof. induction n as [|n IH]; simpl; [reflexivity | exact IH]. Qed.

Lemma all_digits_string_of_uint (d : Decimal.uint) :
  all_digits (NilEmpty.string_of_uint d) = true.
Proof. induction d; simpl; auto. Qed.

Lemma digits_string_of_uint (n : N) :
  JsNumber.digits n = NilEmpty.string_of_uint (N.to_uint n) /\ JsNumber.digits n <> "".
Proof.
  unfold JsNumber.digits, NilZero.string_of_uint.
  destruct n as [|p]; [split; [reflexivity | discriminate]|].
  cbn [N.to_uint]. pose proof (Unsigned.to_uint_nonnil p) as NN.
  destruct (Pos.to_uint p); try (now elim NN); split; try reflexivity;
    discriminate.
Qed.

(** Evaluates [digit_value] at the character in the goal. *)
Ltac eval_digit :=
  match goal with
  | |- context [JsNumber.digit_value ?c] =>
      let v := eval vm_compute in (JsNumber.digit_value c) in
      change (JsNumber.digit_value c) with v; cbv beta iota
  end.

Lemma decimal_digits_acc (d : Decimal.uint) (acc : positive) :
  JsNumber.decimal_digits (Npos acc) (NilEmpty.string_of_uint d) =
  Some (Npos (Pos.of_uint_acc d acc)).
Proof.
  revert acc. induction d; intros acc; cbn [NilEmpty.string_of_uint
    JsNumber.decimal_digits Pos.of_uint_acc]; [reflexivity| ..];
    eval_digit; rewrite <- IHd; f_equal; lia.
Qed.

Lemma decimal_digits_of_uint (d : Decimal.uint) :
  JsNumber.decimal_digits 0 (NilEmpty.string_of_uint d) = Some (Pos.of_uint d).
Proof.
  induction d; cbn [NilEmpty.string_of_uint JsNumber.decimal_digits
    Pos.of_uint]; [reflexivity| ..];
    eval_digit; first [exact IHd | apply decimal_digits_acc].
Qed.

Lemma decimal_digits_zeros (k : nat) (s : string) :
  JsNumber.decimal_digits 0 (zeros k ++ s) = JsNumber.decimal_digits 0 s.
Proof. induction k as [|k IH]; simpl; [reflexivity | exact IH]. Qed.

(** Reading back the digits that were printed gives the number. *)
Lemma decimal_digits_digits (n : N) :
  JsNumber.decimal_digits 0 (JsNumber.digits n) = Some n.
Proof.
  rewrite (proj1 (digits_string_of_uint n)), decimal_digits_of_uint.
  f_equal. apply DecimalN.Unsigned.of_to.
Qed.

Lemma place_point_layout (n : Z) (f : nat) :
  f <> 0 ->
  exists ip fp,
    JsNumber.place_point n f = ip ++ "." ++ fp /\
    ip <> "" /\ String.length fp = f /\
    all_digits ip = true /\ all_digits fp = true /\
    JsNumber.decimal_literal (ip ++ fp) = Some (Z.to_N n).
Proof.
  intros F. destruct f as [|f]; [now elim F|]. unfold JsNumber.place_point.
  set (m0 := JsNumber.digits (Z.to_N n)).
  destruct (digits_string_of_uint (Z.to_N n)) as [E0 N0]. fold m0 in E0, N0.
  assert (all_digits m0 = true) as A0
      by (rewrite E0; apply all_digits_string_of_uint).
  pose proof (decimal_digits_digits (Z.to_N n)) as D0. fold m0 in D0.
  set (m := if (String.length m0 <=? S f)%nat
            then zeros (S f + 1 - String.length m0) ++ m0 else m0).
  assert (all_digits m = true /\
          JsNumber.decimal_digits 0 m = Some (Z.to_N n) /\
          S f < String.length m) as (A & D & L).
  { unfold m. destruct (Nat.leb_spec (String.length m0) (S f)) as [Le|Gt].
    - rewrite all_digits_append, all_digits_zeros, A0, decimal_digits_zeros,
        length_append, length_zeros.
      repeat split; auto. lia.
    - auto. }
  clearbody m. clear m0 E0 N0 A0 D0.
  set (k := String.length m - S f).
  exists (take k m), (drop k m).
  pose proof (take_drop k m) as TD.
  pose proof (length_drop k m) as LD.
  assert (String.length (take k m) = k) as LT.
  { apply (f_equal String.length) in TD. rewrite length_append in TD.
    unfold k in *. lia. }
  rewrite <- TD, all_digits_append in A. apply andb_prop in A.
  destruct A as [A1 A2]. repeat split; auto.
  - intros E. rewrite E in LT. simpl in LT. unfold k in LT. lia.
  - unfold k in *. lia.
  - rewrite TD. unfold JsNumber.decimal_literal.
    destruct m; [simpl in L; lia | exact D].
Qed.

(** The integer that [scaled] yields is the one nearest to the number
    scaled by the power of ten, the larger of the two at a tie. *)
Lemma scaled_nearest (m : positive) (e : Z) (f : nat) :
  let n := JsNumber.scaled m e f in
  (0 <= n /\
   (2 * n - 1) * 2 ^ Z.max 0 (- e)
     <= 2 * (Zpos m * 10 ^ Z.of_nat f) * 2 ^ Z.max 0 e
     < (2 * n + 1) * 2 ^ Z.max 0 (- e))%Z.
Proof.
  unfold JsNumber.scaled.
  assert (0 < Zpos m * 10 ^ Z.of_nat f)%Z as P
      by (apply Z.mul_pos_pos; [lia | apply Z.pow_pos_nonneg; lia]).
  set (num := (Zpos m * 10 ^ Z.of_nat f)%Z) in *.
  destruct (Z.leb_spec 0 e) as [Ge|Lt].
  - rewrite (Z.max_l 0 (- e)), (Z.max_r 0 e) by lia.
    assert (0 < 2 ^ e)%Z by (apply Z.pow_pos_nonneg; lia).
    cbv zeta. rewrite Z.pow_0_r. nia.
  - rewrite (Z.max_r 0 (- e)), (Z.max_l 0 e) by lia.
    assert (0 < 2 ^ (- e))%Z as PD by (apply Z.pow_pos_nonneg; lia).
    replace (- e + 1)%Z with (Z.succ (- e)) by lia.
    rewrite Z.pow_succ_r by lia. set (D := (2 ^ (- e))%Z) in *.
    cbv zeta. rewrite Z.pow_0_r.
    pose proof (Z.div_mod (2 * num + D) (2 * D)) as DM.
    pose proof (Z.mod_pos_bound (2 * num + D) (2 * D)) as MB.
    assert (0 <= (2 * num + D) / (2 * D))%Z by (apply Z.div_pos; lia).
    nia.
Qed.

Section Balance.

Context {IAgentRuntime State : Type}.
Context `{JsNumber.Engine}.

Variables (runtime : IAgentRuntime) (message : Memory) (state : option State)
  (options : option Options) (callback : HandlerCallback) (net : Network).

(** X14: when the balance handler computes a balance and the quotient by
    [1e18] is a zero or a finite Number below [10^21], the reply is ["The
    balance for {address} is "], a sign if the quotient is negative, an
    integer part, a point, exactly five decimals and [" ETH"]; the digits
    denote the integer nearest to the quotient times [10^5], the larger
    one at a tie.  That reply is the first call of the callback, and the
    only one when the call returns. *)
Theorem balance_reply_layout (a : string) (envelope : BlockscoutResponse.t) :
  truthy (address_of message options) = Some a ->
  net (BLOCKSCOUT_API ++ "/v2/addresses/" ++ a) = Resolved (DataObject envelope) ->
  BlockscoutResponse.status envelope <> Some "success" ->
  let quotient :=
    JsNumber.div (JsNumber.Number (balanceInWei envelope)) JsNumber.lit_1e18 in
  let run := getBalance_handler runtime message state options
               (Some callback) net in
  below_1e21 quotient ->
  exists (ip fp : string) (n : Z),
    let reply :=
      "The balance for " ++ a ++ " is " ++
      sign_of quotient ++ ip ++ "." ++ fp ++ " ETH" in
    hd_error (replies (Exec.trace run)) = Some reply /\
    (callback [] reply = None -> replies (Exec.trace run) = [reply]) /\
    ip <> "" /\ String.length fp = 5 /\
    all_digits ip = true /\ all_digits fp = true /\
    JsNumber.decimal_literal (ip ++ fp) = Some (Z.to_N n) /\
    (0 <= n /\
     (2 * n - 1) * denominator quotient
       <= 2 * (numerator quotient * 10 ^ 5)
       < (2 * n + 1) * denominator quotient)%Z.
Proof.
  intros A N S quotient run B. unfold run.
  rewrite (getBalance_success_branch _ _ _ _ _ _ a envelope A N S).
  cbv zeta. unfold balance. fold quotient.
  assert (exists ip fp n,
            JsNumber.toFixed quotient 5 = sign_of quotient ++ ip ++ "." ++ fp /\
            ip <> "" /\ String.length fp = 5 /\
            all_digits ip = true /\ all_digits fp = true /\
            JsNumber.decimal_literal (ip ++ fp) = Some (Z.to_N n) /\
            (0 <= n /\
             (2 * n - 1) * denominator quotient
               <= 2 * (numerator quotient * 10 ^ 5)
               < (2 * n + 1) * denominator quotient)%Z)
    as (ip & fp & n & E & I & L & A1 & A2 & D & R).
  { clearbody quotient. destruct quotient as [s|s| |s m e]; try contradiction.
    - destruct (place_point_layout 0 5)
        as (ip & fp & E & I & L & A1 & A2 & D); [discriminate|].
      exists ip, fp, 0%Z. cbn [JsNumber.toFixed sign_of numerator denominator].
      rewrite E. repeat split; auto; lia.
    - cbn [below_1e21] in B.
      destruct (place_point_layout (JsNumber.scaled m e 5) 5)
        as (ip & fp & E & I & L & A1 & A2 & D); [discriminate|].
      exists ip, fp, (JsNumber.scaled m e 5).
      unfold JsNumber.toFixed. rewrite B, E.
      cbn [sign_of numerator denominator].
      pose proof (scaled_nearest m e 5) as Q. cbv zeta in Q.
      change (Z.of_nat 5) with 5%Z in Q.
      replace (2 * (Z.pos m * 2 ^ Z.max 0 e * 10 ^ 5))%Z
        with (2 * (Z.pos m * 10 ^ 5) * 2 ^ Z.max 0 e)%Z by ring.
      destruct s; repeat split; auto; apply Q. }
  exists ip, fp, n. cbv zeta. rewrite E.
  replace ("The balance for " ++ a ++ " is " ++
           (sign_of quotient ++ ip ++ "." ++ fp) ++ " ETH")
    with ("The balance for " ++ a ++ " is " ++
          sign_of quotient ++ ip ++ "." ++ fp ++ " ETH")
    by (now rewrite !append_assoc).
  split; [now apply replied_first_reply|].
  split; [intros C; now rewrite (replied_returns _ _ _ _ _ C)|].
  repeat split; auto; apply R.
Qed.

End Balance.

(** ** Instances of the further properties *)

Lemma match_address_characterised_witness :
  address_shape sample_address /\
  contains (text (content sample_message)) sample_address.
Proof.
  apply (proj2 (match_address_characterised (text (content sample_message)))
           sample_address).
  reflexivity.
Defined.

Lemma text_match_beats_override_witness :
  requests (Exec.trace
    (run_balance override_abc sample_message (rejecting network_error))) =
    [BLOCKSCOUT_API ++ "/v2/addresses/" ++ sample_address] /\
  requests (Exec.trace
    (run_transactions override_abc sample_message (rejecting network_error))) =
    [BLOCKSCOUT_API ++ "/v2/addresses/" ++ sample_address ++ "/transactions"].
Proof.
  apply (@text_match_beats_override unit unit sample_engine
           tt sample_message None override_abc quiet (rejecting network_error)
           sample_address).
  reflexivity.
Defined.

Lemma at_most_one_request_witness :
  let run := run_balance None sample_message (answering DataNull) in
  List.length (requests (Exec.trace run)) <= 1 /\
  forall url, In url (requests (Exec.trace run)) ->
              prefixb "https://explorer.mode.network/api" url = true.
Proof.
  apply (@at_most_one_request unit unit sample_engine
           tt sample_message None None (answering DataNull)
           (@getBalance unit unit sample_engine) (Some quiet)).
  simpl. left. reflexivity.
Defined.


Lemma reply_is_not_empty_witness :
  "Failed to fetch balance" <> "".
Proof.
  apply (@reply_is_not_empty unit unit sample_engine
           tt sample_message None None quiet (answering DataNull)
           (@getBalance unit unit sample_engine)).
  - simpl. left. reflexivity.
  - simpl. left. reflexivity.
Defined.


Lemma unsettled_request_gives_no_reply_witness :
  let run := run_transactions None sample_message silent in
  Exec.trace run = [HttpGet (transactions_url sample_address)] /\
  Exec.outcome run = Pending.
Proof.
  apply (@unsettled_request_gives_no_reply unit unit sample_engine
           tt sample_message None None quiet silent
           (@getTransactions unit unit)
           (transactions_url sample_address)).
  - simpl. right. right. left. reflexivity.
  - reflexivity.
  - simpl. left. reflexivity.
Defined.

Lemma transactions_without_data_witness :
  replies (Exec.trace
    (run_transactions None sample_message
       (answering (DataObject
          (envelope_of (Some [block_100]) None (Some "success") None))))) =
  ["No transactions found for " ++ sample_address].
Proof.
  destruct (@transactions_without_data unit unit
              tt sample_message None None quiet
              (answering (DataObject
                 (envelope_of (Some [block_100]) None (Some "success") None)))
              sample_address
              (envelope_of (Some [block_100]) None (Some "success") None))
    as [_ R].
  - reflexivity.
  - reflexivity.
  - reflexivity.
  - left. reflexivity.
  - exact (R eq_refl).
Defined.

Lemma transactions_without_success_witness :
  replies (Exec.trace
    (run_transactions None sample_message
       (answering (DataObject
          (envelope_of None (Some {| page_items := Some seven |}) None None))))) =
  ["Failed to fetch transactions"].
Proof.
  destruct (@transactions_without_success unit unit
              tt sample_message None None quiet
              (answering (DataObject
                 (envelope_of None (Some {| page_items := Some seven |})
                    None None)))
              sample_address
              (envelope_of None (Some {| page_items := Some seven |}) None None))
    as [_ G].
  - reflexivity.
  - reflexivity.
  - simpl. discriminate.
  - destruct G as [_ R]; [left; reflexivity|]. exact (R eq_refl).
Defined.

Lemma latest_block_rendering_witness :
  replies (Exec.trace
    (run_block (answering (DataObject
       (envelope_of (Some [block_100; block_100]) None None None))))) =
  ["Latest block:" ++ LF ++ "Number: 100" ++ LF ++ "Timestamp: N/A" ++ LF ++
   "Hash: N/A"].
Proof.
  destruct (@latest_block_rendering unit unit
              tt plain_message None None quiet
              (answering (DataObject
                 (envelope_of (Some [block_100; block_100]) None None None)))
              (envelope_of (Some [block_100; block_100]) None None None)
              block_100 [block_100])
    as [_ R].
  - reflexivity.
  - reflexivity.
  - simpl. discriminate.
  - exact (R eq_refl).
Defined.

Lemma missing_hash_is_undefined_witness :
  exists more,
    replies (Exec.trace
      (run_transactions None sample_message
         (answering (DataObject
            (envelope_of None (Some {| page_items := Some [tx_without_hash] |})
               (Some "success") None))))) =
    ["Recent transactions for " ++ sample_address ++ ":" ++ LF ++ LF ++
     "Hash: undefined" ++ LF ++ more].
Proof.
  destruct (@missing_hash_is_undefined unit unit
              tt sample_message None None quiet
              (answering (DataObject
                 (envelope_of None
                    (Some {| page_items := Some [tx_without_hash] |})
                    (Some "success") None)))
              sample_address
              (envelope_of None (Some {| page_items := Some [tx_without_hash] |})
                 (Some "success") None)
              tx_without_hash [])
    as (more & _ & R).
  - reflexivity.
  - reflexivity.
  - reflexivity.
  - reflexivity.
  - reflexivity.
  - exists more. exact (R eq_refl).
Defined.

Lemma balance_reply_layout_witness :
  exists (ip fp : string) (n : Z),
    replies (Exec.trace
      (run_balance None sample_message
         (answering (DataObject (envelope_of None None None (Some "0")))))) =
      ["The balance for " ++ sample_address ++ " is " ++
       "" ++ ip ++ "." ++ fp ++ " ETH"] /\
    ip <> "" /\ String.length fp = 5 /\
    all_digits ip = true /\ all_digits fp = true /\
    JsNumber.decimal_literal (ip ++ fp) = Some (Z.to_N n) /\
    (0 <= n /\ (2 * n - 1) * 1 <= 2 * (0 * 10 ^ 5) < (2 * n + 1) * 1)%Z.
Proof.
  destruct (@balance_reply_layout unit unit sample_engine
              tt sample_message None None quiet
              (answering (DataObject (envelope_of None None None (Some "0"))))
              sample_address
              (envelope_of None None None (Some "0")))
    as (ip & fp & n & _ & R & Q).
  - reflexivity.
  - reflexivity.
  - simpl. discriminate.
  - exact I.
  - exists ip, fp, n. split; [exact (R eq_refl) | exact Q].
Defined.

(** ** The two handlers that take an address *)

Section Agreement.

Context {IAgentRuntime State : Type}.
Context `{JsNumber.Engine}.

(** X15: on the same message and options the balance handler and the
    transactions handler settle on the same address, whatever the network
    answers to either: one issues a request exactly when the other does,
    and the URL of the transactions request is the URL of the balance
    request followed by ["/transactions"]. *)
Theorem handlers_agree_on_address
    (runtime : IAgentRuntime) (message : Memory) (state : option State)
    (options : option Options) (callback : HandlerCallback)
    (net net' : Network) :
  requests (Exec.trace
    (getTransactions_handler runtime message state options (Some callback) net')) =
  map (fun url => url ++ "/transactions")
    (requests (Exec.trace
       (getBalance_handler runtime message state options (Some callback) net))).
Proof.
  rewrite getBalance_run, getTransactions_run.
  destruct (truthy (address_of message options)) as [a|];
    [|now rewrite !replied_requests].
  assert (transactions_url a = balance_url a ++ "/transactions") as E
      by (unfold transactions_url, balance_url; now rewrite !append_assoc).
  destruct (net (balance_url a)) as [[| | |envelope]|e|];
    try destruct (is_success (BlockscoutResponse.status envelope));
    destruct (net' (transactions_url a)) as [[| | |envelope']|e'|];
    try destruct (is_success (BlockscoutResponse.status envelope'));
    try destruct (transactions_of envelope');
    rewrite ?replied_requests, ?caught_requests;
    cbn [requests Exec.trace fst map]; now rewrite E.
Qed.

End Agreement.
